(** * Inventory store (`src/main.py`): model and verified properties

    The development embeds the two core classes of the program,
    [Producto] and [Inventario], and proves the properties of the store's
    contract: the index invariant, the behaviour of add / remove / search /
    statistics, and the save / load cycle.

    Modelling conventions.
    - Python [str] is [string]; the case and whitespace operations follow
      Python on the ASCII range (characters above 127 are caseless and are
      not whitespace).
    - Python [dict] keeps insertion order, and the program depends on it
      (file order, first maximum, bucket iteration), so a dict is an
      association list with in-place update and append-on-new-key.
    - Python [set] is a [gset].
    - [float] arithmetic is a parameter of the model (class [Flotante]):
      conversion from [int], sum, product and the strict comparison;
      IEEE binary64 is given as an instance and runs the examples.
    - Exceptions are values of type [res]; an operation that can raise
      returns the (possibly mutated) store together with its outcome.
    - A [Producto] object is stored in one dict slot only (its key is its
      own immutable id), so objects are modelled by value. *)

From Stdlib Require Import ZArith String Ascii List Bool Lia Permutation Floats.
From stdpp Require Import base option list gmap strings sorting.

Local Set Warnings "-register-all,-inexact-float".
Local Open Scope string_scope.
Local Open Scope list_scope.
Local Open Scope Z_scope.

(** ** Python string operations *)

Module PyStr.

(** [str.isspace] on one ASCII character: TAB, LF, VT, FF, CR,
    FS, GS, RS, US and space. *)
Definition is_space (c : ascii) : bool :=
  let n := N_of_ascii c in
  (((9 <=? n) && (n <=? 13)) || ((28 <=? n) && (n <=? 32)))%N.

Definition is_upper (c : ascii) : bool :=
  let n := N_of_ascii c in ((65 <=? n) && (n <=? 90))%N.

Definition is_lower (c : ascii) : bool :=
  let n := N_of_ascii c in ((97 <=? n) && (n <=? 122))%N.

Definition is_cased (c : ascii) : bool := is_upper c || is_lower c.

Definition upper_c (c : ascii) : ascii :=
  if is_lower c then ascii_of_N (N_of_ascii c - 32) else c.

Definition lower_c (c : ascii) : ascii :=
  if is_upper c then ascii_of_N (N_of_ascii c + 32) else c.

Fixpoint map_s (f : ascii -> ascii) (s : string) : string :=
  match s with
  | EmptyString => EmptyString
  | String c r => String (f c) (map_s f r)
  end.

(** [s.upper()] and [s.lower()] *)
Definition upper (s : string) : string := map_s upper_c s.
Definition lower (s : string) : string := map_s lower_c s.

(** [s.title()]: a cased character is upper-cased when the previous
    character is not cased and lower-cased when it is. *)
Fixpoint title_aux (previous_is_cased : bool) (s : string) : string :=
  match s with
  | EmptyString => EmptyString
  | String c r =>
      String (if previous_is_cased then lower_c c else upper_c c)
             (title_aux (is_cased c) r)
  end.

Definition title (s : string) : string := title_aux false s.

Fixpoint lstrip (s : string) : string :=
  match s with
  | EmptyString => EmptyString
  | String c r => if is_space c then lstrip r else s
  end.

Fixpoint rstrip (s : string) : string :=
  match s with
  | EmptyString => EmptyString
  | String c r =>
      match rstrip r with
      | EmptyString => if is_space c then EmptyString else String c EmptyString
      | r' => String c r'
      end
  end.

(** [s.strip()] *)
Definition strip (s : string) : string := rstrip (lstrip s).

Fixpoint starts_with (p s : string) : bool :=
  match p, s with
  | EmptyString, _ => true
  | String a p', String b s' => if Ascii.eqb a b then starts_with p' s' else false
  | String _ _, EmptyString => false
  end.

(** [needle in hay] on strings *)
Fixpoint contains (needle hay : string) : bool :=
  starts_with needle hay ||
  match hay with
  | EmptyString => false
  | String _ r => contains needle r
  end.

(** every character is whitespace (the empty string included) *)
Fixpoint blank (s : string) : bool :=
  match s with
  | EmptyString => true
  | String c r => is_space c && blank r
  end.
End PyStr.

(** ** Insertion-ordered dictionaries with string keys *)

Module ODict.

Section Ops.
Context {V : Type}.

Definition keys (d : list (string * V)) : list string := d.*1.
Definition values (d : list (string * V)) : list V := d.*2.

(** [d.get(k)] *)
Fixpoint get (k : string) (d : list (string * V)) : option V :=
  match d with
  | [] => None
  | (k', v) :: r => if decide (k = k') then Some v else get k r
  end.

(** [k in d] *)
Definition mem (k : string) (d : list (string * V)) : bool :=
  bool_decide (is_Some (get k d)).

(** [d[k] = v]: an existing key keeps its position, a new key goes last. *)
Fixpoint set (k : string) (v : V) (d : list (string * V)) : list (string * V) :=
  match d with
  | [] => [(k, v)]
  | (k', v') :: r =>
      if decide (k = k') then (k, v) :: r else (k', v') :: set k v r
  end.

(** [del d[k]] *)
Fixpoint del (k : string) (d : list (string * V)) : list (string * V) :=
  match d with
  | [] => []
  | (k', v') :: r => if decide (k = k') then r else (k', v') :: del k r
  end.

End Ops.

End ODict.

(** ** Python values, exceptions and floats *)

Inductive excepcion := ValueError | KeyError | TypeError | AttributeError.

(** Outcome of a call: a value, or a raised exception. *)
Inductive res (A : Type) : Type :=
  | Ok (a : A)
  | Raise (e : excepcion).
Arguments Ok {A} a.
Arguments Raise {A} e.

#[global] Instance res_bind : MBind res := fun A B k r =>
  match r with
  | Ok a => k a
  | Raise e => Raise e
  end.

(** [[f(x) for x in l]], stopping at the first exception *)
Fixpoint res_mapM {A B : Type} (f : A -> res B) (l : list A) : res (list B) :=
  match l with
  | [] => Ok []
  | x :: r => y ← f x; ys ← res_mapM f r; Ok (y :: ys)
  end.

(** The arithmetic of Python's [float] used by the program. The
    operations are total: an [int] too large for a double, which Python
    refuses with [OverflowError], is outside the model. *)
Class Flotante (F : Type) := {
  f_of_Z : Z -> F;        (* float(n) for an int n *)
  f_add : F -> F -> F;    (* x + y *)
  f_mul : F -> F -> F;    (* x * y *)
  f_lt : F -> F -> bool   (* x < y *)
}.

(** [<] is a strict order (on IEEE doubles it is, NaN included). *)
Class FlotanteOrden (F : Type) `{Flotante F} : Prop := {
  f_lt_irrefl : forall x : F, f_lt x x = false;
  f_lt_trans : forall x y z : F,
    f_lt x y = true -> f_lt y z = true -> f_lt x z = true
}.

(** [a <= b] on strings: by code point, a proper prefix first *)
Definition str_le (a b : string) : Prop := String.leb a b = true.

#[global] Instance str_le_dec : RelDecision str_le.
Proof. intros a b. unfold str_le. apply _. Defined.

(** [sorted(l)] on a list of strings *)
Definition py_sorted (l : list string) : list string := merge_sort str_le l.

Section Modelo.
Context {F : Type} `{Flotante F}.

(** Values that reach the program from the console or from a JSON file. *)
Inductive pyval : Type :=
  | PNone
  | PBool (b : bool)
  | PInt (z : Z)
  | PFloat (f : F)
  | PStr (s : string)
  | PList (l : list pyval)
  | PDict (d : list (string * pyval)).

(** [data[k]] with a string key *)
Definition py_getitem (data : pyval) (k : string) : res pyval :=
  match data with
  | PDict d =>
      match ODict.get k d with
      | Some v => Ok v
      | None => Raise KeyError
      end
  | _ => Raise TypeError
  end.

(** [data.get(k, default)]: only a dict has the method *)
Definition py_get (data : pyval) (k : string) (default : pyval) : res pyval :=
  match data with
  | PDict d =>
      match ODict.get k d with
      | Some v => Ok v
      | None => Ok default
      end
  | _ => Raise AttributeError
  end.

(** [for x in v]: lists give their items, dicts their keys, strings their
    characters; the other values are not iterable. *)
Definition py_iter (v : pyval) : res (list pyval) :=
  match v with
  | PList l => Ok l
  | PDict d => Ok (PStr <$> ODict.keys d)
  | PStr s => Ok ((fun c => PStr (String c EmptyString)) <$> list_ascii_of_string s)
  | _ => Raise TypeError
  end.

(** ** Class [Producto] *)

Record Producto : Type := mkProducto {
  id_producto : string;
  nombre : string;
  cantidad : Z;          (* an int; a bool counts as the int 0 or 1 *)
  precio : F;
  fecha_creacion : pyval
}.

Definition _validar_id (id_producto : pyval) : res string :=
  match id_producto with
  | PStr s =>
      if decide (PyStr.strip s = "") then Raise ValueError
      else Ok (PyStr.upper (PyStr.strip s))
  | _ => Raise ValueError
  end.

Definition _validar_nombre (nombre : pyval) : res string :=
  match nombre with
  | PStr s =>
      if decide (PyStr.strip s = "") then Raise ValueError
      else Ok (PyStr.title (PyStr.strip s))
  | _ => Raise ValueError
  end.

Definition _validar_cantidad (cantidad : pyval) : res Z :=
  match cantidad with
  | PInt z => if z <? 0 then Raise ValueError else Ok z
  | PBool b => Ok (Z.b2z b)
  | _ => Raise ValueError
  end.

Definition _validar_precio (precio : pyval) : res F :=
  match precio with
  | PInt z => if z <? 0 then Raise ValueError else Ok (f_of_Z z)
  | PBool b => Ok (f_of_Z (Z.b2z b))
  | PFloat f => if f_lt f (f_of_Z 0) then Raise ValueError else Ok f
  | _ => Raise ValueError
  end.

(** [Producto(id_producto, nombre, cantidad, precio)], built at time [ahora] *)
Definition Producto_init (id_producto nombre cantidad precio : pyval)
    (ahora : string) : res Producto :=
  i ← _validar_id id_producto;
  n ← _validar_nombre nombre;
  c ← _validar_cantidad cantidad;
  p ← _validar_precio precio;
  Ok (mkProducto i n c p (PStr ahora)).

(** the property setters *)
Definition set_nombre (p : Producto) (valor : pyval) : res Producto :=
  n ← _validar_nombre valor;
  Ok (mkProducto (id_producto p) n (cantidad p) (precio p) (fecha_creacion p)).

Definition set_cantidad (p : Producto) (valor : pyval) : res Producto :=
  c ← _validar_cantidad valor;
  Ok (mkProducto (id_producto p) (nombre p) c (precio p) (fecha_creacion p)).

Definition set_precio (p : Producto) (valor : pyval) : res Producto :=
  x ← _validar_precio valor;
  Ok (mkProducto (id_producto p) (nombre p) (cantidad p) x (fecha_creacion p)).

Definition calcular_valor_total (p : Producto) : F :=
  f_mul (f_of_Z (cantidad p)) (precio p).

Definition to_dict (p : Producto) : pyval :=
  PDict [("id_producto", PStr (id_producto p));
         ("nombre", PStr (nombre p));
         ("cantidad", PInt (cantidad p));
         ("precio", PFloat (precio p));
         ("fecha_creacion", fecha_creacion p)].

Definition from_dict (data : pyval) (ahora : string) : res Producto :=
  i ← py_getitem data "id_producto";
  n ← py_getitem data "nombre";
  c ← py_getitem data "cantidad";
  x ← py_getitem data "precio";
  producto ← Producto_init i n c x ahora;
  f ← py_get data "fecha_creacion" (fecha_creacion producto);
  Ok (mkProducto (id_producto producto) (nombre producto)
        (cantidad producto) (precio producto) f).

(** ** Class [Inventario] *)

Record Inventario : Type := mkInventario {
  productos : list (string * Producto);          (* dict id -> Producto *)
  ids_productos : gset string;                   (* set of ids *)
  indice_nombres : list (string * list string);  (* dict name -> list of ids *)
  archivo_inventario : string
}.

(** the three collections as [__init__] creates them, before it loads *)
Definition inventario_vacio (archivo : string) : Inventario :=
  mkInventario [] ∅ [] archivo.

Definition _normalizar_nombre (nombre : string) : string :=
  PyStr.strip (PyStr.lower nombre).

Definition normalizar_id (id_producto : string) : string :=
  PyStr.strip (PyStr.upper id_producto).

Definition _actualizar_indice_nombres (indice : list (string * list string))
    (producto : Producto) : list (string * list string) :=
  let nombre_norm := _normalizar_nombre (nombre producto) in
  let indice1 :=
    if ODict.mem nombre_norm indice then indice
    else ODict.set nombre_norm [] indice in
  let ids := default [] (ODict.get nombre_norm indice1) in
  if bool_decide (id_producto producto ∈ ids) then indice1
  else ODict.set nombre_norm (ids ++ [id_producto producto]) indice1.

(** [l.remove(x)]: drops the first occurrence *)
Fixpoint list_remove (x : string) (l : list string) : list string :=
  match l with
  | [] => []
  | y :: r => if decide (x = y) then r else y :: list_remove x r
  end.

Definition _remover_de_indice_nombres (indice : list (string * list string))
    (producto : Producto) : list (string * list string) :=
  let nombre_norm := _normalizar_nombre (nombre producto) in
  match ODict.get nombre_norm indice with
  | None => indice
  | Some ids =>
      let ids1 :=
        if bool_decide (id_producto producto ∈ ids)
        then list_remove (id_producto producto) ids else ids in
      match ids1 with
      | [] => ODict.del nombre_norm indice
      | _ => ODict.set nombre_norm ids1 indice
      end
  end.

(** the three statements that store a product (lines 184-186, 414-416) *)
Definition insertar (s : Inventario) (producto : Producto) : Inventario :=
  mkInventario
    (ODict.set (id_producto producto) producto (productos s))
    ({[id_producto producto]} ∪ ids_productos s)
    (_actualizar_indice_nombres (indice_nombres s) producto)
    (archivo_inventario s).

Definition agregar_producto (s : Inventario) (producto : Producto)
    : Inventario * bool :=
  if bool_decide (id_producto producto ∈ ids_productos s) then (s, false)
  else (insertar s producto, true).

Definition eliminar_producto (s : Inventario) (id_producto : string)
    : Inventario * res bool :=
  let id_producto := normalizar_id id_producto in
  if bool_decide (id_producto ∈ ids_productos s) then
    match ODict.get id_producto (productos s) with
    | None => (s, Raise KeyError)
    | Some producto =>
        (mkInventario
           (ODict.del id_producto (productos s))
           (ids_productos s ∖ {[id_producto]})
           (_remover_de_indice_nombres (indice_nombres s) producto)
           (archivo_inventario s),
         Ok true)
    end
  else (s, Ok false).

(** [try: ... except ValueError: return False] around a setter *)
Definition actualizar_con (setter : Producto -> pyval -> res Producto)
    (s : Inventario) (id_producto : string) (valor : pyval)
    : Inventario * res bool :=
  let id_producto := normalizar_id id_producto in
  match ODict.get id_producto (productos s) with
  | None => (s, Ok false)
  | Some producto =>
      match setter producto valor with
      | Ok producto' =>
          (mkInventario (ODict.set id_producto producto' (productos s))
             (ids_productos s) (indice_nombres s) (archivo_inventario s),
           Ok true)
      | Raise ValueError => (s, Ok false)
      | Raise e => (s, Raise e)
      end
  end.

Definition actualizar_cantidad := actualizar_con set_cantidad.
Definition actualizar_precio := actualizar_con set_precio.

(** [self.__productos[id]] *)
Definition producto_de (s : Inventario) (id_producto : string) : res Producto :=
  match ODict.get id_producto (productos s) with
  | Some p => Ok p
  | None => Raise KeyError
  end.

Definition buscar_por_nombre (s : Inventario) (nombre : string)
    : res (list Producto) :=
  let nombre_busqueda := _normalizar_nombre nombre in
  exactos ←
    match ODict.get nombre_busqueda (indice_nombres s) with
    | Some ids => res_mapM (producto_de s) ids
    | None => Ok []
    end;
  match exactos with
  | [] =>
      parciales ←
        res_mapM (fun item : string * list string =>
                    if PyStr.contains nombre_busqueda item.1
                    then res_mapM (producto_de s) item.2
                    else Ok [])
                 (indice_nombres s);
      Ok (concat parciales)
  | _ => Ok exactos
  end.

Definition obtener_producto_por_id (s : Inventario) (id_producto : string)
    : option Producto :=
  ODict.get (normalizar_id id_producto) (productos s).

Definition obtener_productos_bajo_stock (s : Inventario) (limite_stock : Z)
    : list Producto :=
  filter (fun p => cantidad p ≤ limite_stock) (ODict.values (productos s)).

(** [__len__] and [__contains__] *)
Definition len (s : Inventario) : nat := length (productos s).

Definition contiene (s : Inventario) (id_producto : string) : bool :=
  bool_decide (normalizar_id id_producto ∈ ids_productos s).

(** [max(l, key=precio)] and [min(l, key=precio)]: the first extreme item *)
Definition py_max (l : list Producto) : option Producto :=
  match l with
  | [] => None
  | x :: r =>
      Some (fold_left (fun m y => if f_lt (precio m) (precio y) then y else m) r x)
  end.

Definition py_min (l : list Producto) : option Producto :=
  match l with
  | [] => None
  | x :: r =>
      Some (fold_left (fun m y => if f_lt (precio y) (precio m) then y else m) r x)
  end.

(** [sum(...)]: from 0, left to right *)
Definition sum_float (l : list F) : F := fold_left f_add l (f_of_Z 0).
Definition sum_int (l : list Z) : Z := fold_left Z.add l 0.

Record Estadisticas : Type := mkEstadisticas {
  total_productos : nat;
  valor_total_inventario : F;
  producto_mas_caro : option Producto;
  producto_mas_barato : option Producto;
  stock_total : Z
}.

Definition obtener_estadisticas (s : Inventario) : Estadisticas :=
  match productos s with
  | [] => mkEstadisticas 0 (f_of_Z 0) None None 0
  | _ =>
      let productos := ODict.values (productos s) in
      mkEstadisticas
        (length productos)
        (sum_float (calcular_valor_total <$> productos))
        (py_max productos)
        (py_min productos)
        (sum_int (cantidad <$> productos))
  end.

(** ** Persistence *)

(** What a path holds: text that [json.load] parses to a value, or
    anything on which opening or parsing raises. *)
Inductive archivo : Type :=
  | ArchivoJson (data : pyval)
  | ArchivoMalformado.

(** The disk: the existing files, and the paths that cannot be written. *)
Record Disco : Type := mkDisco {
  archivos : gmap string archivo;
  protegidos : gset string
}.

Definition guardar_inventario (ahora : string) (d : Disco) (s : Inventario)
    : Disco * bool :=
  let data :=
    PDict [("productos", PList (to_dict <$> ODict.values (productos s)));
           ("fecha_guardado", PStr ahora);
           ("version", PStr "1.0")] in
  if bool_decide (archivo_inventario s ∈ protegidos d) then (d, false)
  else
    (mkDisco (<[archivo_inventario s := ArchivoJson data]> (archivos d))
       (protegidos d),
     true).

(** the loop over the stored records (lines 411-419) *)
Fixpoint cargar_productos (ahora : string) (registros : list pyval)
    (s : Inventario) : Inventario * res unit :=
  match registros with
  | [] => (s, Ok tt)
  | producto_data :: resto =>
      match from_dict producto_data ahora with
      | Ok producto => cargar_productos ahora resto (insertar s producto)
      | Raise _ =>
          (* the handler evaluates producto_data.get('id_producto', ...) *)
          match py_get producto_data "id_producto" (PStr "desconocido") with
          | Ok _ => cargar_productos ahora resto s
          | Raise e => (s, Raise e)
          end
      end
  end.

Definition limpiar (s : Inventario) : Inventario :=
  inventario_vacio (archivo_inventario s).

Definition cargar_inventario (ahora : string) (d : Disco) (s : Inventario)
    : Inventario * bool :=
  match archivos d !! archivo_inventario s with
  | None => (s, true)
  | Some ArchivoMalformado => (s, false)
  | Some (ArchivoJson data) =>
      let s0 := limpiar s in
      match (l ← py_get data "productos" (PList []); py_iter l) with
      | Raise _ => (s0, false)
      | Ok registros =>
          match cargar_productos ahora registros s0 with
          | (s1, Ok _) => (s1, true)
          | (s1, Raise _) => (s1, false)
          end
      end
  end.


(** ** Sequences of store operations *)

Inductive operacion : Type :=
  | OpAgregar (producto : Producto)
  | OpEliminar (id_producto : string)
  | OpActualizarCantidad (id_producto : string) (nueva_cantidad : pyval)
  | OpActualizarPrecio (id_producto : string) (nuevo_precio : pyval).

(** the store after one call (the returned flag or exception is dropped) *)
Definition aplicar (s : Inventario) (o : operacion) : Inventario :=
  match o with
  | OpAgregar p => (agregar_producto s p).1
  | OpEliminar i => (eliminar_producto s i).1
  | OpActualizarCantidad i v => (actualizar_cantidad s i v).1
  | OpActualizarPrecio i v => (actualizar_precio s i v).1
  end.

Definition ejecutar (ops : list operacion) (s : Inventario) : Inventario :=
  fold_left aplicar ops s.

(** ** The store invariants (spec, data model) *)

(** The shape of the three collections: the product dict has no repeated
    key and files each product under its own id, the id set is its key
    set, and the index has no repeated key, no empty bucket and no id
    twice in a bucket. *)
Record estructura (s : Inventario) : Prop := mkEstructura {
  est_nodup : NoDup (ODict.keys (productos s));
  est_clave : forall k p,
    ODict.get k (productos s) = Some p -> id_producto p = k;
  est_ids : forall k,
    k ∈ ids_productos s <-> is_Some (ODict.get k (productos s));
  est_idx_nodup : NoDup (ODict.keys (indice_nombres s));
  est_cubo : forall n b,
    ODict.get n (indice_nombres s) = Some b -> b ≠ [] ∧ NoDup b
}.

(** The invariant: the shape above, and the index lists exactly the stored
    ids, each under the normalized current name of its product. *)
Record inv (s : Inventario) : Prop := mkInv {
  inv_estructura : estructura s;
  inv_idx : forall n b i,
    ODict.get n (indice_nombres s) = Some b -> i ∈ b ->
    exists p, ODict.get i (productos s) = Some p ∧
              _normalizar_nombre (nombre p) = n;
  inv_cubre : forall i p,
    ODict.get i (productos s) = Some p ->
    exists b, ODict.get (_normalizar_nombre (nombre p)) (indice_nombres s) = Some b
              ∧ i ∈ b
}.

(** every id listed in the index is stored (part of the invariant) *)
Definition indice_resuelve (s : Inventario) : Prop :=
  forall n b,
    ODict.get n (indice_nombres s) = Some b ->
    forall i, i ∈ b -> is_Some (ODict.get i (productos s)).

(** the setters used by the store leave id and name alone *)
Definition conserva_clave (setter : Producto -> pyval -> res Producto) : Prop :=
  forall p v p', setter p v = Ok p' ->
    id_producto p' = id_producto p ∧ nombre p' = nombre p.

(** ** Well-formed products and stores *)

(** A product whose fields are in normal form: each validator returns the
    field as it is. [Producto_init] and the setters only build such
    products. *)
Definition producto_valido (p : Producto) : Prop :=
  _validar_id (PStr (id_producto p)) = Ok (id_producto p) ∧
  _validar_nombre (PStr (nombre p)) = Ok (nombre p) ∧
  _validar_cantidad (PInt (cantidad p)) = Ok (cantidad p) ∧
  _validar_precio (PFloat (precio p)) = Ok (precio p).

(** The primary dict is a dict (no repeated key), files each product
    under its own id, and holds well-formed products. *)
Definition productos_ok (s : Inventario) : Prop :=
  NoDup (ODict.keys (productos s)) ∧
  forall k p, ODict.get k (productos s) = Some p ->
    id_producto p = k ∧ producto_valido p.

(** the products that a list of ids stands for *)
Definition productos_de_ids (s : Inventario) (ids : list string)
    : list Producto :=
  omap (fun i => ODict.get i (productos s)) ids.

(** the buckets whose key contains the query, in index order *)
Definition cubos_parciales (s : Inventario) (consulta : string)
    : list (string * list string) :=
  filter (fun item => Is_true (PyStr.contains consulta item.1))
         (indice_nombres s).

(** a stored record that is a JSON object *)
Definition es_dict (registro : pyval) : Prop :=
  match registro with
  | PDict _ => True
  | _ => False
  end.

(** what one stored record does to the store when it is an object:
    inserted if it validates, skipped if not *)
Definition cargar_registro (ahora : string) (s : Inventario) (registro : pyval)
    : Inventario :=
  match from_dict registro ahora with
  | Ok producto => insertar s producto
  | Raise _ => s
  end.

(** ** The remaining queries and the life of a store *)

Definition mostrar_todos_productos (s : Inventario) : res (list Producto) :=
  res_mapM (producto_de s) (py_sorted (ODict.keys (productos s))).

(** the id an operation works on, as the store looks it up *)
Definition id_de_operacion (o : operacion) : string :=
  match o with
  | OpAgregar p => id_producto p
  | OpEliminar i => normalizar_id i
  | OpActualizarCantidad i _ => normalizar_id i
  | OpActualizarPrecio i _ => normalizar_id i
  end.

(** what a caller can do to a store: one of the four operations, or a
    load from whatever the disk holds at that moment *)
Inductive accion : Type :=
  | AcOperar (o : operacion)
  | AcCargar (ahora : string) (d : Disco).

Definition aplicar_accion (s : Inventario) (a : accion) : Inventario :=
  match a with
  | AcOperar o => aplicar s o
  | AcCargar ahora d => (cargar_inventario ahora d s).1
  end.

Definition ejecutar_acciones (l : list accion) (s : Inventario) : Inventario :=
  fold_left aplicar_accion l s.

(** the records that the load loop iterates over, for a parsed file *)
Definition registros_de (data : pyval) : res (list pyval) :=
  l ← py_get data "productos" (PList []); py_iter l.

End Modelo.

Arguments pyval F : clear implicits.
Arguments Producto F : clear implicits.
Arguments Inventario F : clear implicits.
Arguments Estadisticas F : clear implicits.
Arguments archivo F : clear implicits.
Arguments Disco F : clear implicits.
Arguments operacion F : clear implicits.
Arguments accion F : clear implicits.

(** ** Python's float: IEEE binary64 *)

(** [float(n)], rounded to nearest even; an [int] beyond the double range
    becomes an infinity here (Python raises [OverflowError]). *)
Definition float_of_Z (n : Z) : float :=
  SF2Prim (binary_normalize prec emax n 0 false).

#[global] Instance Flotante_float : Flotante float := {|
  f_of_Z := float_of_Z;
  f_add := PrimFloat.add;
  f_mul := PrimFloat.mul;
  f_lt := PrimFloat.ltb
|}.

(** ** Sample data (the demonstration products of [main]) *)

Definition ahora_demo : string := "2024-01-01 10:00:00".

(** [Producto("LAPTOP001", "Laptop Dell XPS 13", 10, 1299.99)] and
    [Producto("MOUSE001", "Mouse Logitech MX Master 3", 25, 99.99)] *)
Definition laptop : Producto float :=
  mkProducto "LAPTOP001" "Laptop Dell Xps 13" 10 1299.99%float (PStr ahora_demo).
Definition mouse : Producto float :=
  mkProducto "MOUSE001" "Mouse Logitech Mx Master 3" 25 99.99%float
    (PStr ahora_demo).

Definition inventario_demo : Inventario float :=
  ejecutar [OpAgregar laptop; OpAgregar mouse] (inventario_vacio "inventario.json").

(** a disk without files *)
Definition disco_vacio : Disco float := mkDisco ∅ ∅.

(** a disk where the inventory path holds text that is not JSON *)
Definition disco_malformado : Disco float :=
  mkDisco {["inventario.json" := ArchivoMalformado]} ∅.

(** a stored record, as [to_dict] writes it *)
Definition registro_demo (id_producto nombre : string) (cantidad : Z)
    (precio : float) : pyval float :=
  PDict [("id_producto", PStr id_producto); ("nombre", PStr nombre);
         ("cantidad", PInt cantidad); ("precio", PFloat precio);
         ("fecha_creacion", PStr ahora_demo)].

(** a disk whose inventory file stores the id "A1" twice, under two names *)
Definition disco_repetido : Disco float :=
  mkDisco
    {["inventario.json" :=
        ArchivoJson
          (PDict [("productos",
                   PList [registro_demo "a1" "tornillo" 5 0.5;
                          registro_demo "A1 " "tuerca" 7 0.25]);
                  ("fecha_guardado", PStr ahora_demo);
                  ("version", PStr "1.0")])]}
    ∅.

(** the store loaded from that file, and the same store after removing "A1" *)
Definition inventario_repetido : Inventario float :=
  (cargar_inventario ahora_demo disco_repetido
     (inventario_vacio "inventario.json")).1.

Definition inventario_huerfano : Inventario float :=
  (eliminar_producto inventario_repetido "a1").1.

(** [Producto("CABLE001", "Cable USB-C", 50, 19.99)] *)
Definition cable : Producto float :=
  mkProducto "CABLE001" "Cable Usb-C" 50 19.99%float (PStr ahora_demo).

(** a disk whose inventory file holds the given top-level value *)
Definition disco_con (data : pyval float) : Disco float :=
  mkDisco {["inventario.json" := ArchivoJson data]} ∅.

(** a file whose second record has a negative quantity *)
Definition registros_con_invalido : list (pyval float) :=
  [registro_demo "a1" "tornillo" 5 0.5;
   registro_demo "b2" "arandela" (-1) 0.1;
   registro_demo "c3" "tuerca" 7 0.25].

(** a file whose second record is the number 7 *)
Definition registros_con_numero : list (pyval float) :=
  [registro_demo "a1" "tornillo" 5 0.5; PInt 7;
   registro_demo "c3" "tuerca" 7 0.25].

Definition archivo_de (registros : list (pyval float)) : pyval float :=
  PDict [("productos", PList registros);
         ("fecha_guardado", PStr ahora_demo);
         ("version", PStr "1.0")].

(** * Properties *)

(** ** Facts about the string operations *)

Module PyStrFacts.
Import PyStr.

(** *** Character facts, checked over the 256 characters *)

Ltac por_caracter c :=
  destruct c as [b0 b1 b2 b3 b4 b5 b6 b7];
  destruct b0, b1, b2, b3, b4, b5, b6, b7; reflexivity.

Lemma is_space_upper_c c : is_space (upper_c c) = is_space c.
Proof. por_caracter c. Qed.

Lemma is_space_lower_c c : is_space (lower_c c) = is_space c.
Proof. por_caracter c. Qed.

Lemma upper_c_idem c : upper_c (upper_c c) = upper_c c.
Proof. por_caracter c. Qed.

Lemma lower_c_idem c : lower_c (lower_c c) = lower_c c.
Proof. por_caracter c. Qed.

Lemma is_cased_upper_c c : is_cased (upper_c c) = is_cased c.
Proof. por_caracter c. Qed.

Lemma is_cased_lower_c c : is_cased (lower_c c) = is_cased c.
Proof. por_caracter c. Qed.

(** *** Whitespace structure *)

Lemma blank_map_s f s :
  (forall c, is_space (f c) = is_space c) -> blank (map_s f s) = blank s.
Proof. intros Hf. induction s as [|c r IH]; simpl; [done|]. by rewrite Hf, IH. Qed.


Lemma lstrip_empty s : lstrip s = "" <-> blank s = true.
Proof.
  induction s as [|c r IH]; simpl; [done|].
  destruct (is_space c); simpl; [done|]. split; discriminate.
Qed.




Lemma rstrip_idem s : rstrip (rstrip s) = rstrip s.
Proof.
  induction s as [|c r IH]; simpl; [done|].
  destruct (rstrip r) as [|c' r'] eqn:Hr.
  - destruct (is_space c) eqn:Hc; simpl; [done|]. by rewrite Hc.
  - change (rstrip (String c (String c' r')) = String c (String c' r')).
    cbn [rstrip]. cbn [rstrip] in IH. by rewrite IH.
Qed.

(** a string does not start with whitespace *)
Definition no_lead (s : string) : Prop :=
  match s with
  | EmptyString => True
  | String c _ => is_space c = false
  end.

Lemma no_lead_lstrip s : no_lead (lstrip s).
Proof.
  induction s as [|c r IH]; simpl; [done|].
  destruct (is_space c) eqn:Hc; [done|]. by simpl.
Qed.

Lemma lstrip_no_lead s : no_lead s -> lstrip s = s.
Proof. destruct s as [|c r]; simpl; [done|]. by intros ->. Qed.

Lemma no_lead_rstrip s : no_lead s -> no_lead (rstrip s).
Proof.
  destruct s as [|c r]; simpl; [done|]. intros Hc.
  destruct (rstrip r); [by rewrite Hc|done].
Qed.

Lemma no_lead_strip s : no_lead (strip s).
Proof. apply no_lead_rstrip, no_lead_lstrip. Qed.


Lemma rstrip_map_s f s :
  (forall c, is_space (f c) = is_space c) ->
  rstrip (map_s f s) = map_s f (rstrip s).
Proof.
  intros Hf. induction s as [|c r IH]; simpl; [done|].
  rewrite IH. destruct (rstrip r); simpl.
  - rewrite Hf. by destruct (is_space c).
  - done.
Qed.

Lemma rstrip_title_aux b s : rstrip (title_aux b s) = title_aux b (rstrip s).
Proof.
  revert b. induction s as [|c r IH]; intros b; simpl; [done|].
  rewrite IH. destruct (rstrip r); simpl.
  - destruct b; rewrite ?is_space_lower_c, ?is_space_upper_c;
      by destruct (is_space c).
  - done.
Qed.

Lemma no_lead_map_s f s :
  (forall c, is_space (f c) = is_space c) -> no_lead s -> no_lead (map_s f s).
Proof. intros Hf. destruct s; simpl; [done|]. by rewrite Hf. Qed.

Lemma no_lead_title_aux b s : no_lead s -> no_lead (title_aux b s).
Proof.
  destruct s; simpl; [done|].
  destruct b; by rewrite ?is_space_lower_c, ?is_space_upper_c.
Qed.

(** A stripped string stays stripped under [upper], [lower] and [title]. *)
Lemma strip_upper_strip s : strip (upper (strip s)) = upper (strip s).
Proof.
  unfold strip at 1.
  rewrite lstrip_no_lead
    by (apply no_lead_map_s; [apply is_space_upper_c|apply no_lead_strip]).
  unfold upper. rewrite rstrip_map_s by apply is_space_upper_c.
  unfold strip. by rewrite rstrip_idem.
Qed.

Lemma strip_title_strip s : strip (title (strip s)) = title (strip s).
Proof.
  unfold strip at 1.
  rewrite lstrip_no_lead by (apply no_lead_title_aux, no_lead_strip).
  unfold title. rewrite rstrip_title_aux.
  unfold strip. by rewrite rstrip_idem.
Qed.

Lemma upper_idem s : upper (upper s) = upper s.
Proof.
  unfold upper. induction s as [|c r IH]; simpl; [done|].
  by rewrite upper_c_idem, IH.
Qed.

Lemma title_aux_idem b s : title_aux b (title_aux b s) = title_aux b s.
Proof.
  revert b. induction s as [|c r IH]; intros b; simpl; [done|].
  destruct b.
  - by rewrite lower_c_idem, is_cased_lower_c, IH.
  - by rewrite upper_c_idem, is_cased_upper_c, IH.
Qed.

Lemma title_idem s : title (title s) = title s.
Proof. apply title_aux_idem. Qed.

Lemma blank_upper s : blank (upper s) = blank s.
Proof. apply blank_map_s, is_space_upper_c. Qed.







Lemma map_s_empty f s : map_s f s = "" <-> s = "".
Proof. by destruct s. Qed.

Lemma title_empty s : title s = "" <-> s = "".
Proof. by destruct s. Qed.

(** *** The operations on sample strings *)

Example strip_ejemplo : strip (String "009" "  Cable USB-C  " ++ String "010" "")%string = "Cable USB-C".
Proof. reflexivity. Qed.

Example upper_ejemplo : upper " laptop001 " = " LAPTOP001 ".
Proof. reflexivity. Qed.

Example title_ejemplo : title "laptop dell XPS 13" = "Laptop Dell Xps 13".
Proof. reflexivity. Qed.

Example title_apostrofo : title "monitor samsung 24''x" = "Monitor Samsung 24''X".
Proof. reflexivity. Qed.

Example contains_ejemplo :
  contains "o" "mouse logitech mx master 3" = true ∧
  contains "mouse" "laptop dell xps 13" = false.
Proof. by split. Qed.

Lemma starts_with_refl s : starts_with s s = true.
Proof. induction s as [|c r IH]; simpl; [done|]. by rewrite Ascii.eqb_refl. Qed.

Lemma contains_refl s : contains s s = true.
Proof. destruct s; simpl; [done|]. by rewrite Ascii.eqb_refl, starts_with_refl. Qed.

(** *** Case changes against stripping *)

Lemma lstrip_map_s f s :
  (forall c, is_space (f c) = is_space c) ->
  lstrip (map_s f s) = map_s f (lstrip s).
Proof.
  intros Hf. induction s as [|c r IH]; simpl; [done|].
  rewrite Hf. by destruct (is_space c).
Qed.

Lemma strip_upper s : strip (upper s) = upper (strip s).
Proof.
  unfold strip, upper.
  by rewrite lstrip_map_s, rstrip_map_s by apply is_space_upper_c.
Qed.





End PyStrFacts.

(** ** The order on strings *)

Lemma str_le_total (a b : string) : str_le a b ∨ str_le b a.
Proof. apply String.leb_total. Qed.

Lemma str_le_antisym (a b : string) : str_le a b -> str_le b a -> a = b.
Proof. apply String.leb_antisym. Qed.

Lemma str_le_trans (a b c : string) : str_le a b -> str_le b c -> str_le a c.
Proof.
  unfold str_le, String.leb. revert b c.
  induction a as [|x a IH]; intros [|y b] [|z c]; simpl; try done.
  unfold Ascii.compare.
  destruct (N.compare_spec (N_of_ascii x) (N_of_ascii y)),
           (N.compare_spec (N_of_ascii y) (N_of_ascii z)),
           (N.compare_spec (N_of_ascii x) (N_of_ascii z));
    try done; try lia; apply IH.
Qed.

#[global] Instance str_le_Total : Total str_le := str_le_total.
#[global] Instance str_le_Transitive : Transitive str_le := str_le_trans.

(** ** Facts about ordered dictionaries *)

Module ODictFacts.
Import ODict.

Section Facts.
Context {V : Type}.
Implicit Types (d : list (string * V)) (k : string) (v : V).

Lemma get_Some_elem k v d : get k d = Some v -> (k, v) ∈ d.
Proof.
  induction d as [|[k' v'] r IH]; csimpl; [done|].
  case_decide; [intros [= ->]; subst; left|intros; right; auto].
Qed.

Lemma get_None_keys k d : get k d = None <-> k ∉ keys d.
Proof.
  unfold keys. induction d as [|[k' v'] r IH]; csimpl.
  - split; [intros _; apply not_elem_of_nil|done].
  - rewrite not_elem_of_cons. case_decide; [split; [done|tauto]|].
    rewrite IH. tauto.
Qed.

Lemma get_is_Some_keys k d : is_Some (get k d) <-> k ∈ keys d.
Proof.
  destruct (get k d) eqn:E.
  - split; [intros _|by eauto].
    destruct (decide (k ∈ keys d)) as [|Hn]; [done|].
    apply get_None_keys in Hn. congruence.
  - split; [by intros [? ?]|]. intros Hk. apply get_None_keys in E. done.
Qed.

Lemma elem_get k v d : NoDup (keys d) -> (k, v) ∈ d -> get k d = Some v.
Proof.
  unfold keys. induction d as [|[k' v'] r IH]; csimpl; intros Hnd Hin.
  - by apply elem_of_nil in Hin.
  - apply NoDup_cons in Hnd as [Hk' Hnd].
    apply elem_of_cons in Hin as [[= -> ->]|Hin].
    + by rewrite decide_True.
    + case_decide as E; [|by apply IH]. subst k'.
      exfalso. apply Hk'. apply list_elem_of_fmap. by exists (k, v).
Qed.

Lemma get_set_eq k v d : get k (set k v d) = Some v.
Proof.
  induction d as [|[k' v'] r IH]; csimpl.
  - by rewrite decide_True.
  - case_decide; csimpl; [by rewrite decide_True|by rewrite decide_False].
Qed.

Lemma get_set_ne k k' v d : k ≠ k' -> get k' (set k v d) = get k' d.
Proof.
  intros Hne. induction d as [|[k0 v0] r IH]; csimpl.
  - by rewrite decide_False.
  - case_decide; csimpl.
    + subst k0. by rewrite !decide_False.
    + case_decide; [done|apply IH].
Qed.

Lemma get_set k k' v d :
  get k' (set k v d) = if decide (k = k') then Some v else get k' d.
Proof.
  case_decide; [subst; apply get_set_eq|by apply get_set_ne].
Qed.

Lemma keys_set k v d :
  keys (set k v d) = if mem k d then keys d else keys d ++ [k].
Proof.
  unfold mem, keys. induction d as [|[k' v'] r IH]; csimpl; [done|].
  case_decide; csimpl.
  - by subst k'.
  - rewrite IH. by destruct (bool_decide (is_Some (get k r))).
Qed.

Lemma set_fresh k v d : get k d = None -> set k v d = d ++ [(k, v)].
Proof.
  induction d as [|[k' v'] r IH]; csimpl; [done|].
  case_decide; [done|]. intros Hn. by rewrite IH.
Qed.

Lemma elem_keys_set k k' v d : k' ∈ keys (set k v d) <-> (k' = k) ∨ (k' ∈ keys d).
Proof.
  rewrite keys_set. unfold mem. case_bool_decide as Hm.
  - apply get_is_Some_keys in Hm. split; [auto|]. by intros [->|].
  - rewrite elem_of_app, list_elem_of_singleton. tauto.
Qed.

Lemma NoDup_keys_set k v d : NoDup (keys d) -> NoDup (keys (set k v d)).
Proof.
  intros Hnd. rewrite keys_set. unfold mem. case_bool_decide as Hm; [done|].
  apply NoDup_app. split_and!; [done| |apply NoDup_singleton].
  intros x Hx ->%list_elem_of_singleton. apply Hm.
  by apply get_is_Some_keys.
Qed.

Lemma elem_set k v kv d :
  NoDup (keys d) ->
  kv ∈ set k v d <-> (kv = (k, v)) ∨ (kv.1 ≠ k ∧ kv ∈ d).
Proof.
  intros Hnd. destruct kv as [k0 v0]. csimpl. split.
  - intros Hin. pose proof (NoDup_keys_set k v d Hnd) as Hnd'.
    apply (elem_get _ _ _ Hnd') in Hin. rewrite get_set in Hin.
    case_decide; [left; congruence|right]. split; [done|].
    by apply get_Some_elem.
  - intros [[= -> ->]|[Hne Hin]].
    + apply get_Some_elem, get_set_eq.
    + apply get_Some_elem. rewrite get_set_ne by done. by apply elem_get.
Qed.

Lemma length_del k d :
  length (del k d) = if mem k d then pred (length d) else length d.
Proof.
  unfold mem. induction d as [|[k' v'] r IH]; csimpl; [done|].
  case_decide; csimpl; [done|].
  rewrite IH. case_bool_decide as Hm; [|done].
  destruct r; [|done]. by destruct Hm.
Qed.

Lemma del_absent k d : get k d = None -> del k d = d.
Proof.
  induction d as [|[k' v'] r IH]; csimpl; [done|].
  case_decide; [done|]. intros Hn. by rewrite IH.
Qed.

Lemma get_del_ne k k' d : k ≠ k' -> get k' (del k d) = get k' d.
Proof.
  intros Hne. induction d as [|[k0 v0] r IH]; csimpl; [done|].
  case_decide; csimpl.
  - subst k0. by rewrite decide_False.
  - case_decide; [done|apply IH].
Qed.

Lemma keys_del_sub k k' d : k' ∈ keys (del k d) -> k' ∈ keys d.
Proof.
  unfold keys. induction d as [|[k0 v0] r IH]; csimpl; [done|].
  case_decide; csimpl.
  - intros. by right.
  - rewrite !elem_of_cons. intros [->|]; [by left|right; auto].
Qed.

Lemma NoDup_keys_del k d : NoDup (keys d) -> NoDup (keys (del k d)).
Proof.
  unfold keys. induction d as [|[k0 v0] r IH]; csimpl; [done|].
  rewrite NoDup_cons. intros [Hk Hnd]. case_decide; csimpl; [done|].
  apply NoDup_cons. split; [|by apply IH].
  intros Hin. apply Hk. by apply (keys_del_sub k).
Qed.

Lemma get_del_eq k d : NoDup (keys d) -> get k (del k d) = None.
Proof.
  unfold keys. induction d as [|[k0 v0] r IH]; csimpl; [done|].
  rewrite NoDup_cons. intros [Hk Hnd]. case_decide; csimpl.
  - subst k0. by apply get_None_keys.
  - rewrite decide_False by done. by apply IH.
Qed.

Lemma get_del k k' d :
  NoDup (keys d) ->
  get k' (del k d) = if decide (k = k') then None else get k' d.
Proof.
  intros Hnd. case_decide; [subst; by apply get_del_eq|by apply get_del_ne].
Qed.

Lemma elem_del k kv d :
  NoDup (keys d) -> kv ∈ del k d <-> kv.1 ≠ k ∧ kv ∈ d.
Proof.
  intros Hnd. destruct kv as [k0 v0]. csimpl.
  pose proof (NoDup_keys_del k d Hnd) as Hnd'. split.
  - intros Hin. apply (elem_get _ _ _ Hnd') in Hin.
    rewrite get_del in Hin by done. case_decide; [done|].
    split; [done|by apply get_Some_elem].
  - intros [Hne Hin]. apply get_Some_elem.
    rewrite get_del_ne by done. by apply elem_get.
Qed.

Lemma set_set k v w d : set k v (set k w d) = set k v d.
Proof.
  induction d as [|[k' v'] r IH]; csimpl.
  - by rewrite decide_True.
  - case_decide; csimpl; [by rewrite decide_True|].
    rewrite decide_False by done. by rewrite IH.
Qed.

Lemma set_same k v d : get k d = Some v -> set k v d = d.
Proof.
  induction d as [|[k' v'] r IH]; csimpl; [done|].
  case_decide; [by intros [= ->]; subst|]. intros Hg. by rewrite IH.
Qed.

Lemma del_set_fresh k v d : get k d = None -> del k (set k v d) = d.
Proof.
  induction d as [|[k' v'] r IH]; csimpl.
  - by rewrite decide_True.
  - case_decide; [done|]. intros Hg. csimpl.
    rewrite decide_False by done. by rewrite IH.
Qed.

Lemma keys_set_present k v d : is_Some (get k d) -> keys (set k v d) = keys d.
Proof.
  intros Hk. rewrite keys_set. unfold mem. by rewrite bool_decide_eq_true_2.
Qed.

Lemma length_set_present k v d : is_Some (get k d) -> length (set k v d) = length d.
Proof.
  intros Hk. rewrite <- (length_fmap fst (set k v d)), <- (length_fmap fst d).
  change (length (keys (set k v d)) = length (keys d)).
  by rewrite keys_set_present.
Qed.

End Facts.

End ODictFacts.

(** ** The store *)

Section Propiedades.
Context {F : Type} `{Flotante F}.
Implicit Types (s : Inventario F) (p q : Producto F) (v : pyval F).

(** *** The two index updates, read through [get] *)

Lemma list_remove_sub x i l : i ∈ list_remove x l -> i ∈ l.
Proof.
  induction l as [|y r IH]; simpl; [done|].
  case_decide; rewrite ?elem_of_cons; [auto|]. intros [->|]; auto.
Qed.

Lemma list_remove_keep x i l : i ≠ x -> i ∈ l -> i ∈ list_remove x l.
Proof.
  intros Hne. induction l as [|y r IH]; simpl; [done|].
  rewrite elem_of_cons. case_decide.
  - subst y. intros [->|]; [done|auto].
  - rewrite elem_of_cons. intros [->|]; auto.
Qed.

Lemma list_remove_NoDup x l : NoDup l -> NoDup (list_remove x l).
Proof.
  induction l as [|y r IH]; simpl; [done|].
  rewrite NoDup_cons. intros [Hy Hr]. case_decide; [done|].
  apply NoDup_cons. split; [|auto]. intros Hin. by apply Hy, (list_remove_sub x).
Qed.

Lemma list_remove_gone x l : NoDup l -> x ∉ list_remove x l.
Proof.
  induction l as [|y r IH]; simpl; [intros _; apply not_elem_of_nil|].
  rewrite NoDup_cons. intros [Hy Hr]. case_decide; [by subst|].
  rewrite not_elem_of_cons. auto.
Qed.

Lemma actualizar_indice_get idx (p : Producto F) n :
  ODict.get n (_actualizar_indice_nombres idx p) =
    if decide (_normalizar_nombre (nombre p) = n) then
      let b := default [] (ODict.get n idx) in
      Some (if bool_decide (id_producto p ∈ b) then b else b ++ [id_producto p])
    else ODict.get n idx.
Proof.
  unfold _actualizar_indice_nombres, ODict.mem.
  generalize (_normalizar_nombre (nombre p)). intros m.
  destruct (ODict.get m idx) as [b0|] eqn:E; simpl.
  - rewrite E. simpl.
    case_bool_decide; case_decide; subst; rewrite ?E; simpl;
      rewrite ?bool_decide_eq_true_2, ?bool_decide_eq_false_2 by done;
      rewrite ?ODictFacts.get_set_eq, ?ODictFacts.get_set_ne by done; done.
  - rewrite ODictFacts.get_set_eq. simpl.
    case_decide; subst; rewrite ?E; simpl.
    + by rewrite ODictFacts.get_set_eq.
    + by rewrite !ODictFacts.get_set_ne.
Qed.

Lemma actualizar_indice_NoDup idx (p : Producto F) :
  NoDup (ODict.keys idx) ->
  NoDup (ODict.keys (_actualizar_indice_nombres idx p)).
Proof.
  intros Hnd. unfold _actualizar_indice_nombres.
  case_bool_decide; destruct (ODict.mem _ idx);
    repeat apply ODictFacts.NoDup_keys_set; done.
Qed.

Lemma actualizar_indice_contiene idx p :
  exists b,
    ODict.get (_normalizar_nombre (nombre p)) (_actualizar_indice_nombres idx p)
      = Some b ∧ id_producto p ∈ b.
Proof.
  rewrite actualizar_indice_get, decide_True by done.
  eexists. split; [done|]. simpl. case_bool_decide; [done|].
  apply elem_of_app. right. by apply list_elem_of_singleton.
Qed.

Lemma actualizar_indice_conserva idx p (n i : string) b :
  ODict.get n idx = Some b -> i ∈ b ->
  exists b', ODict.get n (_actualizar_indice_nombres idx p) = Some b' ∧ i ∈ b'.
Proof.
  intros Hb Hi. rewrite actualizar_indice_get. case_decide; [|eauto].
  rewrite Hb. simpl. eexists. split; [done|].
  case_bool_decide; [done|]. apply elem_of_app. by left.
Qed.

Lemma remover_indice_get idx (p : Producto F) n :
  NoDup (ODict.keys idx) ->
  ODict.get n (_remover_de_indice_nombres idx p) =
    if decide (_normalizar_nombre (nombre p) = n) then
      match ODict.get n idx with
      | None => None
      | Some b =>
          match (if bool_decide (id_producto p ∈ b)
                 then list_remove (id_producto p) b else b) with
          | [] => None
          | b1 => Some b1
          end
      end
    else ODict.get n idx.
Proof.
  intros Hnd. unfold _remover_de_indice_nombres.
  generalize (_normalizar_nombre (nombre p)). intros m.
  destruct (ODict.get m idx) as [b0|] eqn:E.
  - destruct (if bool_decide _ then _ else _) as [|x b1] eqn:Eb.
    + rewrite ODictFacts.get_del by done.
      destruct (decide (m = n)); subst; rewrite ?E, ?Eb; done.
    + rewrite ODictFacts.get_set.
      destruct (decide (m = n)); subst; rewrite ?E, ?Eb; done.
  - destruct (decide (m = n)); subst; rewrite ?E; done.
Qed.

Lemma remover_indice_NoDup idx (p : Producto F) :
  NoDup (ODict.keys idx) ->
  NoDup (ODict.keys (_remover_de_indice_nombres idx p)).
Proof.
  intros Hnd. unfold _remover_de_indice_nombres.
  destruct (ODict.get _ idx) as [b0|]; [|done].
  destruct (if bool_decide _ then _ else _);
    [by apply ODictFacts.NoDup_keys_del|by apply ODictFacts.NoDup_keys_set].
Qed.

(** *** Every operation and every load preserves the shape *)

Lemma estructura_vacio archivo :
  estructura (inventario_vacio archivo : Inventario F).
Proof. split; simpl; try done; apply NoDup_nil_2. Qed.

Lemma estructura_insertar s p : estructura s -> estructura (insertar s p).
Proof.
  intros [Hnd Hcl Hids Hind Hcu]. split; simpl.
  - by apply ODictFacts.NoDup_keys_set.
  - intros k q. rewrite ODictFacts.get_set. case_decide; [congruence|auto].
  - intros k. rewrite ODictFacts.get_set, elem_of_union, elem_of_singleton, Hids.
    case_decide; [subst; split; eauto|]. split; [intros [?|?]; [congruence|done]|auto].
  - by apply actualizar_indice_NoDup.
  - intros n b. rewrite actualizar_indice_get. case_decide as En; [|apply Hcu].
    intros [= <-]. simpl. destruct (ODict.get n (indice_nombres s)) as [b0|] eqn:E; simpl.
    + destruct (Hcu _ _ E) as [Hne Hnd0]. case_bool_decide as Hin; [done|].
      split; [by destruct b0|]. apply NoDup_app. split_and!; [done| |apply NoDup_singleton].
      intros x Hx ->%list_elem_of_singleton. done.
    + split; [done|apply NoDup_singleton].
Qed.

Lemma estructura_eliminar s (i : string) :
  estructura s -> estructura (eliminar_producto s i).1.
Proof.
  intros Hs. unfold eliminar_producto.
  generalize (normalizar_id i). clear i. intros i.
  case_bool_decide as Hin; simpl; [|done].
  destruct (ODict.get i (productos s)) as [p|] eqn:Ep; simpl; [|done].
  destruct Hs as [Hnd Hcl Hids Hind Hcu]. split; simpl.
  - by apply ODictFacts.NoDup_keys_del.
  - intros k q. rewrite ODictFacts.get_del by done. case_decide; [done|auto].
  - intros k. rewrite ODictFacts.get_del by done.
    rewrite elem_of_difference, elem_of_singleton, Hids.
    case_decide; [subst; split; [tauto|by intros [? ?]]|]. split; [tauto|auto].
  - by apply remover_indice_NoDup.
  - intros n b. rewrite remover_indice_get by done.
    case_decide as En; [|apply Hcu].
    destruct (ODict.get n (indice_nombres s)) as [b0|] eqn:E; [|done].
    destruct (Hcu _ _ E) as [Hne Hnd0].
    case_bool_decide.
    + destruct (list_remove (id_producto p) b0) as [|x b1] eqn:Eb; [done|].
      intros [= <-]. split; [done|]. rewrite <- Eb. by apply list_remove_NoDup.
    + destruct b0; [done|]. by intros [= <-].
Qed.

Lemma set_cantidad_conserva : conserva_clave (F:=F) set_cantidad.
Proof.
  intros p v p'. unfold set_cantidad.
  destruct (_validar_cantidad v); simpl; [|done]. by intros [= <-].
Qed.

Lemma set_precio_conserva : conserva_clave (F:=F) set_precio.
Proof.
  intros p v p'. unfold set_precio.
  destruct (_validar_precio v); simpl; [|done]. by intros [= <-].
Qed.

Lemma estructura_actualizar_con setter s (i : string) v :
  conserva_clave setter -> estructura s ->
  estructura (actualizar_con setter s i v).1.
Proof.
  intros Hset Hs. unfold actualizar_con.
  generalize (normalizar_id i). clear i. intros i.
  destruct (ODict.get i (productos s)) as [p|] eqn:Ep; simpl; [|done].
  destruct (setter p v) as [p'|e] eqn:Es; [|by destruct e].
  destruct (Hset _ _ _ Es) as [Hid' Hn']. simpl.
  destruct Hs as [Hnd Hcl Hids Hind Hcu]. split; simpl; try done.
  - by apply ODictFacts.NoDup_keys_set.
  - intros k q. rewrite ODictFacts.get_set. case_decide; [|auto].
    intros [= <-]. subst k. rewrite Hid'. eauto.
  - intros k. rewrite ODictFacts.get_set, Hids. case_decide; [|done].
    subst k. rewrite Ep. split; eauto.
Qed.

Lemma estructura_aplicar s o : estructura s -> estructura (aplicar s o).
Proof.
  destruct o; simpl.
  - intros Hs. unfold agregar_producto. case_bool_decide; simpl; [done|].
    by apply estructura_insertar.
  - apply estructura_eliminar.
  - apply estructura_actualizar_con, set_cantidad_conserva.
  - apply estructura_actualizar_con, set_precio_conserva.
Qed.

Lemma estructura_cargar (ahora : string) (d : Disco F) s :
  estructura s -> estructura (cargar_inventario ahora d s).1.
Proof.
  intros Hs. unfold cargar_inventario.
  destruct (archivos d !! archivo_inventario s) as [[data|]|]; simpl; try done.
  destruct (_ ≫= _) as [registros|]; simpl; [|apply estructura_vacio].
  assert (Hloop : forall l s0, estructura s0 ->
            estructura (cargar_productos ahora l s0).1).
  { induction l as [|r l IH]; intros s0 Hs0; simpl; [done|].
    destruct (from_dict r ahora) as [p|].
    - by apply IH, estructura_insertar.
    - destruct (py_get r "id_producto" _); [by apply IH|done]. }
  specialize (Hloop registros (limpiar s) (estructura_vacio _)).
  by destruct (cargar_productos ahora registros (limpiar s)) as [s1 [|]].
Qed.

(** *** Every operation preserves the invariant *)

Lemma inv_nodup s : inv s -> NoDup (ODict.keys (productos s)).
Proof. intros [Hs _ _]. apply Hs. Qed.

Lemma inv_clave s :
  inv s -> forall k p, ODict.get k (productos s) = Some p -> id_producto p = k.
Proof. intros [Hs _ _]. apply Hs. Qed.

Lemma inv_ids s :
  inv s ->
  forall k, k ∈ ids_productos s <-> is_Some (ODict.get k (productos s)).
Proof. intros [Hs _ _]. apply Hs. Qed.



Lemma inv_vacio archivo : inv (inventario_vacio archivo : Inventario F).
Proof. split; [apply estructura_vacio|done|done]. Qed.

Lemma inv_insertar s p :
  inv s -> id_producto p ∉ ids_productos s -> inv (insertar s p).
Proof.
  intros [Hest Hidx Hcub] Hfresh.
  assert (Hnone : ODict.get (id_producto p) (productos s) = None).
  { destruct (ODict.get _ _) eqn:E; [|done]. exfalso.
    apply Hfresh, (est_ids s Hest). eauto. }
  split; [by apply estructura_insertar|simpl..].
  - intros n b i. rewrite actualizar_indice_get. case_decide as En.
    + intros [= <-] Hi. simpl in Hi.
      assert (i = id_producto p ∨ i ∈ default [] (ODict.get n (indice_nombres s)))
        as [->|Hi'].
      { case_bool_decide; [by right|].
        apply elem_of_app in Hi as [?|?%list_elem_of_singleton]; auto. }
      * exists p. by rewrite ODictFacts.get_set_eq.
      * destruct (ODict.get n (indice_nombres s)) as [b0|] eqn:E;
          [|by apply elem_of_nil in Hi'].
        destruct (Hidx _ _ _ E Hi') as (q & Hq & Hn). exists q. split; [|done].
        rewrite ODictFacts.get_set_ne; [done|]. intros <-. congruence.
    + intros E Hi. destruct (Hidx _ _ _ E Hi) as (q & Hq & Hn).
      exists q. split; [|done]. rewrite ODictFacts.get_set_ne; [done|].
      intros <-. congruence.
  - intros i q. rewrite ODictFacts.get_set. case_decide as Ei.
    + intros [= <-]. subst i. apply actualizar_indice_contiene.
    + intros Hq. destruct (Hcub _ _ Hq) as (b & Hb & Hi).
      by apply (actualizar_indice_conserva _ _ _ _ b).
Qed.

Lemma inv_agregar s p : inv s -> inv (agregar_producto s p).1.
Proof.
  intros Hs. unfold agregar_producto. case_bool_decide; simpl; [done|].
  by apply inv_insertar.
Qed.

Lemma inv_eliminar s (i : string) : inv s -> inv (eliminar_producto s i).1.
Proof.
  intros Hs. split; [apply estructura_eliminar, Hs|..];
    unfold eliminar_producto;
    generalize (normalizar_id i); clear i; intros i;
    (case_bool_decide as Hin; simpl; [|apply Hs]);
    (destruct (ODict.get i (productos s)) as [p|] eqn:Ep; simpl; [|apply Hs]);
    destruct Hs as [[Hnd Hcl Hids Hind Hcu] Hidx Hcub];
    pose proof (Hcl _ _ Ep) as Hid;
    destruct (Hcub _ _ Ep) as (bp & Hbp & Hibp);
    destruct (Hcu _ _ Hbp) as [_ Hndbp].
  - intros n b j. rewrite remover_indice_get by done. case_decide as En.
    + subst n. rewrite Hbp, Hid. rewrite bool_decide_eq_true_2 by done.
      destruct (list_remove i bp) as [|x b1] eqn:Eb; [done|].
      intros [= <-] Hj. rewrite <- Eb in Hj.
      assert (j ≠ i) by (intros ->; by apply (list_remove_gone i bp)).
      apply list_remove_sub in Hj.
      destruct (Hidx _ _ _ Hbp Hj) as (q & Hq & Hn). exists q.
      by rewrite ODictFacts.get_del_ne.
    + intros E Hj. destruct (Hidx _ _ _ E Hj) as (q & Hq & Hn). exists q.
      split; [|done]. rewrite ODictFacts.get_del_ne; [done|]. intros ->.
      congruence.
  - intros j q. rewrite ODictFacts.get_del by done. case_decide as Ej; [done|].
    intros Hq. destruct (Hcub _ _ Hq) as (b & Hb & Hj).
    rewrite remover_indice_get by done. case_decide as En; [|eauto].
    rewrite Hb, Hid. rewrite En in Hbp. assert (b = bp) as -> by congruence.
    rewrite bool_decide_eq_true_2 by done.
    pose proof (list_remove_keep i j bp (not_eq_sym Ej) Hj) as Hj'.
    destruct (list_remove i bp) as [|x b1]; [by apply elem_of_nil in Hj'|eauto].
Qed.

Lemma inv_actualizar_con setter s (i : string) v :
  conserva_clave setter -> inv s -> inv (actualizar_con setter s i v).1.
Proof.
  intros Hset Hs. split; [by apply estructura_actualizar_con, Hs|..];
    unfold actualizar_con;
    generalize (normalizar_id i); clear i; intros i;
    (destruct (ODict.get i (productos s)) as [p|] eqn:Ep; simpl; [|apply Hs]);
    (destruct (setter p v) as [p'|e] eqn:Es; [|destruct e; apply Hs]);
    destruct (Hset _ _ _ Es) as [Hid' Hn']; simpl;
    destruct Hs as [_ Hidx Hcub].
  - intros n b j E Hj. destruct (Hidx _ _ _ E Hj) as (q & Hq & Hn).
    rewrite ODictFacts.get_set. case_decide; [|eauto]. subst j.
    exists p'. split; [done|]. rewrite Hn'. congruence.
  - intros j q. rewrite ODictFacts.get_set. case_decide; [|auto].
    intros [= <-]. subst j. rewrite Hn'. eauto.
Qed.

Lemma inv_aplicar s o : inv s -> inv (aplicar s o).
Proof.
  destruct o; simpl.
  - apply inv_agregar.
  - apply inv_eliminar.
  - apply inv_actualizar_con, set_cantidad_conserva.
  - apply inv_actualizar_con, set_precio_conserva.
Qed.

Lemma inv_ejecutar ops s : inv s -> inv (ejecutar ops s).
Proof.
  unfold ejecutar. revert s.
  induction ops as [|o ops IH]; intros s Hs; simpl; [done|].
  by apply IH, inv_aplicar.
Qed.

(** ** Constructor, setters and loader build well-formed products *)

Section Validez.
(** conversion from a non-negative [int] gives a non-negative float *)
Hypothesis f_of_Z_no_negativo :
  forall z, 0 ≤ z -> f_lt (f_of_Z z) (f_of_Z 0) = false.

Lemma _validar_id_normal v (i : string) :
  _validar_id v = Ok i -> _validar_id (PStr i : pyval F) = Ok i.
Proof.
  destruct v as [| | | |x| |]; simpl; try done.
  case_decide as Hx; [done|]. intros [= <-].
  rewrite PyStrFacts.strip_upper_strip, PyStrFacts.upper_idem.
  rewrite decide_False; [done|]. unfold PyStr.upper.
  by rewrite PyStrFacts.map_s_empty.
Qed.

Lemma _validar_nombre_normal v (n : string) :
  _validar_nombre v = Ok n -> _validar_nombre (PStr n : pyval F) = Ok n.
Proof.
  destruct v as [| | | |x| |]; simpl; try done.
  case_decide as Hx; [done|]. intros [= <-].
  rewrite PyStrFacts.strip_title_strip, PyStrFacts.title_idem.
  rewrite decide_False; [done|]. by rewrite PyStrFacts.title_empty.
Qed.

Lemma _validar_cantidad_normal v (c : Z) :
  _validar_cantidad v = Ok c -> _validar_cantidad (PInt c : pyval F) = Ok c.
Proof.
  destruct v as [|b|z| | | |]; simpl; try done.
  - intros [= <-]. by destruct b.
  - destruct (z <? 0) eqn:E; [done|]. intros [= <-]. by rewrite E.
Qed.

Lemma _validar_precio_normal v (x : F) :
  _validar_precio v = Ok x -> _validar_precio (PFloat x) = Ok x.
Proof.
  destruct v as [|b|z|f| | |]; simpl; try done.
  - intros [= <-]. rewrite f_of_Z_no_negativo; [done|]. by destruct b.
  - destruct (z <? 0) eqn:E; [done|]. intros [= <-].
    rewrite f_of_Z_no_negativo; [done|]. lia.
  - destruct (f_lt f (f_of_Z 0)) eqn:E; [done|]. intros [= <-]. by rewrite E.
Qed.

Lemma Producto_init_valido (i n c x : pyval F) (ahora : string) p :
  Producto_init i n c x ahora = Ok p -> producto_valido p.
Proof.
  unfold Producto_init.
  destruct (_validar_id i) eqn:Ei; simpl; [|done].
  destruct (_validar_nombre n) eqn:En; simpl; [|done].
  destruct (_validar_cantidad c) eqn:Ec; simpl; [|done].
  destruct (_validar_precio x) eqn:Ex; simpl; [|done].
  intros [= <-]. split_and!; simpl;
    eauto using _validar_id_normal, _validar_nombre_normal,
                _validar_cantidad_normal, _validar_precio_normal.
Qed.

Lemma from_dict_valido (data : pyval F) (ahora : string) p :
  from_dict data ahora = Ok p -> producto_valido p.
Proof.
  unfold from_dict.
  destruct (py_getitem data "id_producto"); simpl; [|done].
  destruct (py_getitem data "nombre"); simpl; [|done].
  destruct (py_getitem data "cantidad"); simpl; [|done].
  destruct (py_getitem data "precio"); simpl; [|done].
  destruct (Producto_init _ _ _ _ _) as [q|] eqn:Eq; simpl; [|done].
  destruct (py_get data "fecha_creacion" _); simpl; [|done].
  intros [= <-]. apply Producto_init_valido in Eq. apply Eq.
Qed.

Lemma set_cantidad_valido p v p' :
  producto_valido p -> set_cantidad p v = Ok p' -> producto_valido p'.
Proof.
  intros (Hi & Hn & Hc & Hx). unfold set_cantidad.
  destruct (_validar_cantidad v) eqn:Ev; simpl; [|done]. intros [= <-].
  split_and!; simpl; eauto using _validar_cantidad_normal.
Qed.

Lemma set_precio_valido p v p' :
  producto_valido p -> set_precio p v = Ok p' -> producto_valido p'.
Proof.
  intros (Hi & Hn & Hc & Hx). unfold set_precio.
  destruct (_validar_precio v) eqn:Ev; simpl; [|done]. intros [= <-].
  split_and!; simpl; eauto using _validar_precio_normal.
Qed.

Lemma productos_ok_insertar s p :
  productos_ok s -> producto_valido p -> productos_ok (insertar s p).
Proof.
  intros [Hnd Hok] Hp. split; simpl.
  - by apply ODictFacts.NoDup_keys_set.
  - intros k q. rewrite ODictFacts.get_set. case_decide; [|apply Hok].
    intros [= <-]. by split.
Qed.

(** every load leaves a well-formed product dict, whatever the file holds *)
Lemma productos_ok_cargar (ahora : string) (d : Disco F) s :
  productos_ok s -> productos_ok (cargar_inventario ahora d s).1.
Proof.
  intros Hs. unfold cargar_inventario.
  destruct (archivos d !! archivo_inventario s) as [[data|]|]; simpl; try done.
  assert (Hvacio : productos_ok (limpiar s)).
  { split; simpl; [apply NoDup_nil_2|done]. }
  destruct (_ ≫= _) as [registros|]; simpl; [|done].
  assert (Hloop : forall l s0, productos_ok s0 ->
            productos_ok (cargar_productos ahora l s0).1).
  { induction l as [|r l IH]; intros s0 Hs0; simpl; [done|].
    destruct (from_dict r ahora) as [p|] eqn:Er.
    - apply IH, productos_ok_insertar; [done|]. by apply from_dict_valido in Er.
    - destruct (py_get r "id_producto" _); [by apply IH|done]. }
  specialize (Hloop registros (limpiar s) Hvacio).
  by destruct (cargar_productos ahora registros (limpiar s)) as [s1 [|]].
Qed.

End Validez.

(** ** C1: the three collections stay in step *)

(** C1. After any sequence of add, remove, update-quantity and update-price
    calls on an initially empty store, the id set is the key set of the
    product dict; every stored id sits, once, in the bucket keyed by the
    normalized current name of its product and in no other bucket; and no
    bucket is empty. *)
Theorem indices_sincronizados_tras_operaciones (archivo : string)
    (ops : list (operacion F)) :
  let s := ejecutar ops (inventario_vacio archivo) in
  ids_productos s = list_to_set (ODict.keys (productos s)) ∧
  NoDup (ODict.keys (indice_nombres s)) ∧
  (forall i p, ODict.get i (productos s) = Some p ->
     exists b,
       ODict.get (_normalizar_nombre (nombre p)) (indice_nombres s) = Some b ∧
       i ∈ b ∧ NoDup b ∧
       forall n b', ODict.get n (indice_nombres s) = Some b' -> i ∈ b' ->
                    n = _normalizar_nombre (nombre p)) ∧
  (forall n b, ODict.get n (indice_nombres s) = Some b -> b ≠ []).
Proof.
  intros s.
  assert (Hs : inv s) by apply inv_ejecutar, inv_vacio.
  destruct Hs as [[Hnd Hcl Hids Hind Hcu] Hidx Hcub].
  split_and!.
  - apply set_eq. intros k.
    by rewrite elem_of_list_to_set, Hids, ODictFacts.get_is_Some_keys.
  - done.
  - intros i p Hp. destruct (Hcub _ _ Hp) as (b & Hb & Hi).
    exists b. split_and!; [done|done|by apply (Hcu _ _ Hb)|].
    intros n b' Hb' Hi'. destruct (Hidx _ _ _ Hb' Hi') as (q & Hq & Hn).
    congruence.
  - intros n b Hb. by apply (Hcu _ _ Hb).
Qed.

(** ** C3: adding a product *)

(** C3. With the id set in step with the product dict: adding a product
    whose id is already stored returns [False] (the call cannot raise) and
    leaves the store as it was, the stored product included; adding a
    product with a new id returns [True] and puts it in the product dict,
    in the id set and in the bucket of its normalized name. *)
Theorem agregar_producto_duplicado_o_nuevo s p :
  (forall k, k ∈ ids_productos s <-> is_Some (ODict.get k (productos s))) ->
  (forall q, ODict.get (id_producto p) (productos s) = Some q ->
     agregar_producto s p = (s, false) ∧
     len (agregar_producto s p).1 = len s ∧
     ODict.get (id_producto p) (productos (agregar_producto s p).1) = Some q) ∧
  (ODict.get (id_producto p) (productos s) = None ->
     exists s', agregar_producto s p = (s', true) ∧
       len s' = S (len s) ∧
       ODict.get (id_producto p) (productos s') = Some p ∧
       id_producto p ∈ ids_productos s' ∧
       exists b,
         ODict.get (_normalizar_nombre (nombre p)) (indice_nombres s') = Some b
         ∧ id_producto p ∈ b).
Proof.
  intros Hids. unfold agregar_producto. split.
  - intros q Hq. rewrite bool_decide_eq_true_2; [done|]. apply Hids. eauto.
  - intros Hnone. rewrite bool_decide_eq_false_2.
    2:{ rewrite Hids, Hnone. by intros [? ?]. }
    eexists. split; [done|]. simpl. split_and!.
    + unfold len. simpl. rewrite ODictFacts.set_fresh by done.
      rewrite length_app. simpl. lia.
    + apply ODictFacts.get_set_eq.
    + apply elem_of_union. left. by apply elem_of_singleton.
    + rewrite actualizar_indice_get, decide_True by done.
      eexists. split; [done|]. simpl. case_bool_decide; [done|].
      apply elem_of_app. right. by apply list_elem_of_singleton.
Qed.

(** ** C4: removing a product *)

Lemma list_remove_absent (x : string) (l : list string) :
  x ∉ l -> list_remove x l = l.
Proof.
  induction l as [|y r IH]; simpl; [done|].
  rewrite not_elem_of_cons. intros [Hne Hr]. rewrite decide_False by done.
  by rewrite IH.
Qed.

(** C4. In every store of the shape the program maintains, removing an id
    (upper-cased and trimmed first) that is present returns [True], lowers
    the count by one and leaves the id out of [contains], out of [findById]
    and out of the bucket of its product's name, that bucket losing the id
    and being deleted when that empties it (under the full invariant the id
    is then in no bucket at all); removing an absent id returns [False] and
    changes nothing. *)
Theorem eliminar_producto_presente_o_ausente s (i : string) :
  estructura s ->
  let k := normalizar_id i in
  (k ∈ ids_productos s ->
     exists p s',
       ODict.get k (productos s) = Some p ∧
       eliminar_producto s i = (s', Ok true) ∧
       S (len s') = len s ∧
       contiene s' i = false ∧
       obtener_producto_por_id s' i = None ∧
       (forall b,
          ODict.get (_normalizar_nombre (nombre p)) (indice_nombres s') = Some b ->
          k ∉ b) ∧
       (forall b,
          ODict.get (_normalizar_nombre (nombre p)) (indice_nombres s) = Some b ->
          ODict.get (_normalizar_nombre (nombre p)) (indice_nombres s') =
            match list_remove k b with
            | [] => None
            | b1 => Some b1
            end) ∧
       (inv s ->
        forall n b, ODict.get n (indice_nombres s') = Some b -> k ∉ b)) ∧
  (k ∉ ids_productos s -> eliminar_producto s i = (s, Ok false)).
Proof.
  intros Hs k. split.
  - intros Hin.
    destruct (proj1 (est_ids s Hs k) Hin) as [p Hp].
    pose proof (est_clave s Hs _ _ Hp) as Hid.
    assert (Helim : eliminar_producto s i =
      (mkInventario (ODict.del k (productos s)) (ids_productos s ∖ {[k]})
         (_remover_de_indice_nombres (indice_nombres s) p)
         (archivo_inventario s), Ok true)).
    { unfold eliminar_producto. fold k.
      by rewrite bool_decide_eq_true_2, Hp by done. }
    assert (Hcubo : forall b,
      ODict.get (_normalizar_nombre (nombre p)) (indice_nombres s) = Some b ->
      ODict.get (_normalizar_nombre (nombre p))
        (_remover_de_indice_nombres (indice_nombres s) p) =
        match list_remove k b with
        | [] => None
        | b1 => Some b1
        end).
    { intros b Hb. rewrite remover_indice_get by apply Hs.
      rewrite decide_True by done. rewrite Hb, Hid.
      case_bool_decide as Hkb; [done|]. by rewrite list_remove_absent. }
    eexists p, _. split_and!; [done|exact Helim|..]; simpl.
    + unfold len. simpl. rewrite ODictFacts.length_del. unfold ODict.mem.
      rewrite bool_decide_eq_true_2 by eauto.
      destruct (productos s); [done|]. simpl. lia.
    + unfold contiene. simpl. fold k. apply bool_decide_eq_false_2.
      rewrite elem_of_difference, elem_of_singleton. tauto.
    + unfold obtener_producto_por_id. simpl. fold k.
      apply ODictFacts.get_del_eq, Hs.
    + intros b.
      destruct (ODict.get (_normalizar_nombre (nombre p)) (indice_nombres s))
        as [b0|] eqn:Eb0.
      * rewrite (Hcubo b0 eq_refl).
        destruct (est_cubo s Hs _ _ Eb0) as [_ Hnd0].
        pose proof (list_remove_gone k b0 Hnd0) as Hgone.
        destruct (list_remove k b0); [done|]. by intros [= <-].
      * rewrite remover_indice_get by apply Hs.
        rewrite decide_True by done. by rewrite Eb0.
    + exact Hcubo.
    + intros Hinv n b Hb Hk.
      pose proof (inv_eliminar s i Hinv) as Hs'. rewrite Helim in Hs'.
      destruct (inv_idx _ Hs' _ _ _ Hb Hk) as (q & Hq & _).
      simpl in Hq. rewrite ODictFacts.get_del_eq in Hq by apply Hs. done.
  - intros Hout. unfold eliminar_producto. fold k.
    by rewrite bool_decide_eq_false_2.
Qed.

(** ** C5 and C9: search by name *)

Lemma filter_ninguno {A} (P : A -> Prop) `{forall x, Decision (P x)} (l : list A) :
  (forall x, x ∈ l -> ¬ P x) -> filter P l = [].
Proof.
  induction l as [|x r IH]; intros Hno; [done|].
  rewrite filter_cons_False by (apply Hno; by left).
  apply IH. intros y Hy. apply Hno. by right.
Qed.

(** ids that are all stored resolve to their products, one for one *)
Lemma res_mapM_producto_de s (ids : list string) :
  (forall i, i ∈ ids -> is_Some (ODict.get i (productos s))) ->
  res_mapM (producto_de s) ids = Ok (productos_de_ids s ids) ∧
  Forall2 (fun i p => ODict.get i (productos s) = Some p)
          ids (productos_de_ids s ids).
Proof.
  unfold productos_de_ids.
  induction ids as [|i r IH]; intros Hall; csimpl; [by split|].
  destruct (Hall i) as [p Hp]; [by left|].
  destruct IH as [IH1 IH2]; [intros; apply Hall; by right|].
  rewrite IH1, Hp. unfold producto_de at 1. rewrite Hp. simpl.
  split; [done|]. by constructor.
Qed.

Lemma inv_indice_resuelve s : inv s -> indice_resuelve s.
Proof.
  intros Hs n b Hb i Hi. destruct (inv_idx s Hs _ _ _ Hb Hi) as (p & Hp & _). eauto.
Qed.

Lemma buscar_parciales s (consulta : string) (l : list (string * list string)) :
  (forall item i, item ∈ l -> i ∈ item.2 -> is_Some (ODict.get i (productos s))) ->
  exists parciales,
    res_mapM (fun item : string * list string =>
                if PyStr.contains consulta item.1
                then res_mapM (producto_de s) item.2
                else Ok []) l = Ok parciales ∧
    concat parciales =
      concat ((fun item => productos_de_ids s item.2) <$>
              filter (fun item => Is_true (PyStr.contains consulta item.1)) l).
Proof.
  induction l as [|item r IH]; intros Hall; csimpl; [by exists []|].
  destruct IH as (ps & Hps & Hc); [intros ????; eapply Hall; [by right|done]|].
  rewrite Hps. destruct (PyStr.contains consulta item.1) eqn:Ec.
  - destruct (res_mapM_producto_de s item.2) as [Hm _].
    { intros i Hi. eapply Hall; [by left|done]. }
    rewrite Hm. simpl. eexists. split; [done|].
    rewrite filter_cons_True by (simpl; by rewrite Ec). csimpl. by rewrite Hc.
  - simpl. eexists. split; [done|].
    rewrite filter_cons_False by (simpl; rewrite Ec; auto). done.
Qed.

(** without an exact bucket, the search scans the index *)
Lemma buscar_por_nombre_sin_exacto s (consulta : string) :
  estructura s -> indice_resuelve s ->
  ODict.get (_normalizar_nombre consulta) (indice_nombres s) = None ->
  buscar_por_nombre s consulta =
    Ok (concat ((fun item => productos_de_ids s item.2) <$>
                cubos_parciales s (_normalizar_nombre consulta))).
Proof.
  intros Hs Hres Hq. unfold buscar_por_nombre. rewrite Hq. simpl.
  destruct (buscar_parciales s (_normalizar_nombre consulta) (indice_nombres s))
    as (ps & Hps & Hc).
  { intros [n b] i Hitem Hi. apply (Hres n b); [|done].
    apply ODictFacts.elem_get; [apply Hs|done]. }
  rewrite Hps. simpl. by rewrite Hc.
Qed.




Lemma concat_productos_de_ids s (l : list (string * list string)) :
  concat ((fun item => productos_de_ids s item.2) <$> l) =
  productos_de_ids s (concat l.*2).
Proof.
  unfold productos_de_ids. induction l as [|item r IH]; csimpl; [done|].
  by rewrite omap_app, IH.
Qed.

Lemma elem_of_concat_cubos (l : list (string * list string)) (i : string) :
  i ∈ concat l.*2 <-> exists n b, (n, b) ∈ l ∧ i ∈ b.
Proof.
  induction l as [|[n b] r IH]; csimpl.
  - split; [by intros ?%elem_of_nil|by intros (? & ? & ?%elem_of_nil & _)].
  - rewrite elem_of_app, IH. split.
    + intros [Hi|(n' & b' & Hin & Hi)]; [exists n, b|exists n', b'];
        (split; [|done]); [by left|by right].
    + intros (n' & b' & Hin & Hi).
      apply elem_of_cons in Hin as [[= -> ->]|Hin]; [by left|right; eauto].
Qed.


Lemma productos_de_ids_claves s :
  NoDup (ODict.keys (productos s)) ->
  productos_de_ids s (ODict.keys (productos s)) = ODict.values (productos s).
Proof.
  unfold productos_de_ids, ODict.keys, ODict.values.
  generalize (productos s). intros d.
  induction d as [|[k v] r IH]; csimpl; intros Hnd; [done|].
  apply NoDup_cons in Hnd as [Hk Hnd]. rewrite decide_True by done.
  f_equal. rewrite <- IH by done. apply list_omap_ext.
  apply Forall2_same_length_lookup. split; [done|].
  intros j x y Hx Hy. assert (x = y) as -> by congruence.
  rewrite decide_False; [done|]. intros ->. apply Hk.
  by apply list_elem_of_lookup_2 in Hy.
Qed.


(** ** C6: statistics *)




Section Estadisticas.
Context `{!FlotanteOrden F}.


End Estadisticas.

(** ** C7 and C8: loading without a readable file *)

Lemma cargar_inventario_sin_archivo (ahora : string) (d : Disco F) s :
  archivos d !! archivo_inventario s = None ->
  cargar_inventario ahora d s = (s, true).
Proof. intros Hd. unfold cargar_inventario. by rewrite Hd. Qed.

(** C8. When the file exists and cannot be parsed, loading returns [False]
    and the store (product dict, id set and name index) is exactly as
    before the call. *)
Theorem cargar_inventario_malformado_no_cambia (ahora : string) (d : Disco F) s :
  archivos d !! archivo_inventario s = Some ArchivoMalformado ->
  cargar_inventario ahora d s = (s, false) ∧
  productos (cargar_inventario ahora d s).1 = productos s ∧
  ids_productos (cargar_inventario ahora d s).1 = ids_productos s ∧
  indice_nombres (cargar_inventario ahora d s).1 = indice_nombres s.
Proof. intros Hd. unfold cargar_inventario. by rewrite Hd. Qed.

(** ** C2: save, then load into a fresh store *)

Lemma campos_to_dict p :
  py_getitem (to_dict p) "id_producto" = Ok (PStr (id_producto p)) ∧
  py_getitem (to_dict p) "nombre" = Ok (PStr (nombre p)) ∧
  py_getitem (to_dict p) "cantidad" = Ok (PInt (cantidad p)) ∧
  py_getitem (to_dict p) "precio" = Ok (PFloat (precio p)) ∧
  forall otro, py_get (to_dict p) "fecha_creacion" otro = Ok (fecha_creacion p).
Proof. by split_and!. Qed.

Lemma from_dict_to_dict (ahora : string) p :
  producto_valido p -> from_dict (to_dict p) ahora = Ok p.
Proof.
  intros (Hi & Hn & Hc & Hx). unfold from_dict.
  destruct (campos_to_dict p) as (-> & -> & -> & -> & Hf).
  cbn [mbind res_bind]. unfold Producto_init.
  rewrite Hi, Hn, Hc, Hx. cbn [mbind res_bind]. rewrite Hf.
  by destruct p.
Qed.

Lemma cargar_productos_validos (ahora : string) (ps : list (Producto F)) s :
  (forall p, p ∈ ps -> producto_valido p) ->
  cargar_productos ahora (to_dict <$> ps) s = (fold_left insertar ps s, Ok tt).
Proof.
  revert s. induction ps as [|p r IH]; intros s Hval; csimpl; [done|].
  rewrite from_dict_to_dict by (apply Hval; by left).
  apply IH. intros q Hq. apply Hval. by right.
Qed.

Lemma productos_fold_insertar (ps : list (Producto F)) s :
  productos (fold_left insertar ps s) =
  fold_left (fun d p => ODict.set (id_producto p) p d) ps (productos s).
Proof. revert s. induction ps as [|p r IH]; intros s; simpl; [done|]. by rewrite IH. Qed.

Lemma fold_set_values (d acc : list (string * Producto F)) :
  NoDup (ODict.keys (acc ++ d)) ->
  (forall k p, (k, p) ∈ d -> id_producto p = k) ->
  fold_left (fun a p => ODict.set (id_producto p) p a) (ODict.values d) acc
  = acc ++ d.
Proof.
  unfold ODict.keys, ODict.values. revert acc.
  induction d as [|[k p] r IH]; intros acc Hnd Hid; csimpl.
  - by rewrite app_nil_r.
  - rewrite (Hid k p) by (by left).
    rewrite ODictFacts.set_fresh.
    + rewrite IH.
      * by rewrite <- app_assoc.
      * by rewrite <- app_assoc.
      * intros k' p' Hin. apply Hid. by right.
    + apply ODictFacts.get_None_keys. unfold ODict.keys.
      rewrite fmap_app in Hnd. apply NoDup_app in Hnd as (_ & Hdis & _).
      intros Hk. apply (Hdis k Hk). csimpl. by left.
Qed.


(** ** C10: a file that repeats an id *)

Lemma cargar_productos_dicts (ahora : string) (l : list (pyval F)) s :
  Forall es_dict l ->
  cargar_productos ahora l s = (fold_left (cargar_registro ahora) l s, Ok tt).
Proof.
  intros Hd. revert s. induction Hd as [|r l Hr _ IH]; intros s; simpl; [done|].
  unfold cargar_registro at 2. destruct (from_dict r ahora); [apply IH|].
  destruct r; try done. simpl. destruct (ODict.get _ _); apply IH.
Qed.

Lemma cargar_registros_conserva_cubo (ahora : string) (l : list (pyval F)) s
    (n i : string) b :
  ODict.get n (indice_nombres s) = Some b -> i ∈ b ->
  exists b',
    ODict.get n (indice_nombres (fold_left (cargar_registro ahora) l s)) = Some b'
    ∧ i ∈ b'.
Proof.
  revert s b. induction l as [|r l IH]; intros s b Hb Hi; simpl; [eauto|].
  unfold cargar_registro at 2. destruct (from_dict r ahora) as [p|]; [|eauto].
  destruct (actualizar_indice_conserva (indice_nombres s) p n i b Hb Hi)
    as (b' & Hb' & Hi').
  by apply (IH (insertar s p) b').
Qed.

Lemma cargar_registros_conserva_producto (ahora : string) (l : list (pyval F)) s
    (k : string) p :
  ODict.get k (productos s) = Some p ->
  (forall r q, r ∈ l -> from_dict r ahora = Ok q -> id_producto q ≠ k) ->
  ODict.get k (productos (fold_left (cargar_registro ahora) l s)) = Some p.
Proof.
  revert s. induction l as [|r l IH]; intros s Hp Hno; simpl; [done|].
  apply IH; [|intros r' q Hr'; apply Hno; by right].
  unfold cargar_registro. destruct (from_dict r ahora) as [q|] eqn:Er; [|done].
  simpl. rewrite ODictFacts.get_set_ne; [done|]. apply (Hno r); [by left|done].
Qed.

Lemma cargar_registros_NoDup (ahora : string) (l : list (pyval F)) s :
  NoDup (ODict.keys (productos s)) ->
  NoDup (ODict.keys (productos (fold_left (cargar_registro ahora) l s))).
Proof.
  revert s. induction l as [|r l IH]; intros s Hnd; simpl; [done|].
  apply IH. unfold cargar_registro. destruct (from_dict r ahora); [|done].
  by apply ODictFacts.NoDup_keys_set.
Qed.

(** C10. When the parsed file lists two valid records with the same
    normalized id (every record being a JSON object), loading returns
    [True]; the product dict holds one entry for that id, the later record
    (the last one with that id); and the id is listed both in the bucket of
    the earlier record's name and in the bucket of the later record's name. *)
Theorem cargar_inventario_ids_repetidos (ahora : string) (d : Disco F) s
    (data : list (string * pyval F)) (antes medio despues : list (pyval F))
    (ra rb : pyval F) (pa pb : Producto F) :
  archivos d !! archivo_inventario s = Some (ArchivoJson (PDict data)) ->
  ODict.get "productos" data = Some (PList (antes ++ ra :: medio ++ rb :: despues)) ->
  Forall es_dict (antes ++ ra :: medio ++ rb :: despues) ->
  from_dict ra ahora = Ok pa ->
  from_dict rb ahora = Ok pb ->
  id_producto pa = id_producto pb ->
  (forall r q, r ∈ despues -> from_dict r ahora = Ok q ->
               id_producto q ≠ id_producto pb) ->
  exists s',
    cargar_inventario ahora d s = (s', true) ∧
    ODict.get (id_producto pb) (productos s') = Some pb ∧
    NoDup (ODict.keys (productos s')) ∧
    (exists b, ODict.get (_normalizar_nombre (nombre pa)) (indice_nombres s') = Some b
               ∧ id_producto pb ∈ b) ∧
    (exists b, ODict.get (_normalizar_nombre (nombre pb)) (indice_nombres s') = Some b
               ∧ id_producto pb ∈ b).
Proof.
  intros Hfile Hlista Hdicts Hra Hrb Hid Hultimo.
  unfold cargar_inventario. rewrite Hfile. cbn [py_get]. rewrite Hlista.
  cbn [mbind res_bind py_iter]. rewrite cargar_productos_dicts by done.
  eexists. split; [done|].
  rewrite !fold_left_app. cbn [fold_left]. rewrite !fold_left_app. cbn [fold_left].
  set (s1 := fold_left (cargar_registro ahora) antes (limpiar s)).
  set (s2 := cargar_registro ahora s1 ra).
  set (s3 := fold_left (cargar_registro ahora) medio s2).
  set (s4 := cargar_registro ahora s3 rb).
  assert (Hs4 : s4 = insertar s3 pb) by (unfold s4, cargar_registro; by rewrite Hrb).
  split_and!.
  - apply cargar_registros_conserva_producto; [|done].
    rewrite Hs4. simpl. apply ODictFacts.get_set_eq.
  - apply cargar_registros_NoDup. subst s4 s3 s2 s1.
    repeat (apply (cargar_registros_NoDup ahora [_]) ||
            apply cargar_registros_NoDup).
    simpl. apply NoDup_nil_2.
  - destruct (actualizar_indice_contiene (indice_nombres s1) pa) as (b & Hb & Hi).
    assert (Hs2 : indice_nombres s2 = _actualizar_indice_nombres (indice_nombres s1) pa)
      by (unfold s2, cargar_registro; by rewrite Hra).
    rewrite <- Hs2 in Hb. rewrite Hid in Hi.
    destruct (cargar_registros_conserva_cubo ahora (medio ++ [rb]) s2 _ _ _ Hb Hi)
      as (b1 & Hb1 & Hi1).
    rewrite fold_left_app in Hb1. cbn [fold_left] in Hb1. fold s3 s4 in Hb1.
    by apply (cargar_registros_conserva_cubo ahora despues s4 _ _ b1).
  - destruct (actualizar_indice_contiene (indice_nombres s3) pb) as (b & Hb & Hi).
    assert (Hs4' : indice_nombres s4 = _actualizar_indice_nombres (indice_nombres s3) pb)
      by (by rewrite Hs4).
    rewrite <- Hs4' in Hb.
    by apply (cargar_registros_conserva_cubo ahora despues s4 _ _ b).
Qed.

End Propiedades.

(** ** IEEE doubles are strictly ordered by [<] *)

Lemma SFltb_irrefl (a : spec_float) : SFltb a a = false.
Proof.
  unfold SFltb, SFcompare. destruct a as [[]|[]| |[] m e]; try done;
    rewrite Z.compare_refl; change (Pos.compare_cont Eq m m) with (Pos.compare m m);
    by rewrite Pos.compare_refl.
Qed.

Lemma SFltb_trans (a b c : spec_float) :
  SFltb a b = true -> SFltb b c = true -> SFltb a c = true.
Proof.
  unfold SFltb, SFcompare.
  destruct a as [[]|[]| |[] ma ea], b as [[]|[]| |[] mb eb],
           c as [[]|[]| |[] mc ec]; try done;
    change (Pos.compare_cont Eq) with Pos.compare;
    destruct (Z.compare_spec ea eb), (Z.compare_spec eb ec),
             (Z.compare_spec ea ec); try done; try lia; subst;
    destruct (Pos.compare_spec ma mb), (Pos.compare_spec mb mc),
             (Pos.compare_spec ma mc); simpl; try done; try lia.
Qed.

#[global] Instance FlotanteOrden_float : FlotanteOrden float.
Proof.
  split; simpl.
  - intros x. rewrite ltb_spec. apply SFltb_irrefl.
  - intros x y z. rewrite !ltb_spec. apply SFltb_trans.
Qed.

(** ** The model on the sample data of the program *)

Example Producto_init_normaliza :
  Producto_init (PStr " laptop001 ") (PStr "laptop dell XPS 13") (PInt 10)
    (PFloat 1299.99%float) ahora_demo = Ok laptop ∧
  Producto_init (PStr "MOUSE001") (PStr "Mouse Logitech MX Master 3") (PInt 25)
    (PFloat 99.99%float) ahora_demo = Ok mouse.
Proof. split; vm_compute; reflexivity. Qed.

Example Producto_init_rechaza :
  Producto_init (PStr "   ") (PStr "x") (PInt 1) (PFloat 1%float) ahora_demo
    = Raise ValueError ∧
  Producto_init (PStr "a") (PStr "") (PInt 1) (PFloat 1%float) ahora_demo
    = Raise ValueError ∧
  Producto_init (PStr "a") (PStr "x") (PInt (-1)) (PFloat 1%float) ahora_demo
    = Raise ValueError ∧
  Producto_init (PStr "a") (PStr "x") (PStr "1") (PFloat 1%float) ahora_demo
    = Raise ValueError ∧
  Producto_init (PStr "a") (PStr "x") (PInt 1) (PFloat (-0.5)%float) ahora_demo
    = Raise ValueError.
Proof. split_and!; vm_compute; reflexivity. Qed.

Example estadisticas_demo :
  obtener_estadisticas inventario_demo =
    mkEstadisticas 2 15499.65%float (Some laptop) (Some mouse) 35.
Proof. vm_compute. reflexivity. Qed.

Example buscar_demo :
  buscar_por_nombre inventario_demo "mouse" = Ok [mouse] ∧
  buscar_por_nombre inventario_demo "o" = Ok [laptop; mouse] ∧
  buscar_por_nombre inventario_demo "teclado" = Ok [].
Proof. split_and!; vm_compute; reflexivity. Qed.

Example bajo_stock_demo :
  obtener_productos_bajo_stock inventario_demo 8 = [] ∧
  obtener_productos_bajo_stock inventario_demo 10 = [laptop].
Proof. split; vm_compute; reflexivity. Qed.

Example actualizar_demo :
  (actualizar_cantidad inventario_demo "laptop001" (PInt (-3))).2 = Ok false ∧
  (actualizar_cantidad inventario_demo "laptop001" (PInt 3)).2 = Ok true ∧
  (actualizar_precio inventario_demo "nadie" (PFloat 1%float)).2 = Ok false.
Proof. split_and!; vm_compute; reflexivity. Qed.

(** Outside the invariant. The file that repeats the id "A1" loads into a
    store whose index lists "A1" under both names; removing "A1" clears the
    bucket of the current name only, and a search that reaches the other
    bucket raises [KeyError]. *)
Example carga_repetida_y_busqueda :
  indice_nombres inventario_repetido = [("tornillo", ["A1"]); ("tuerca", ["A1"])] ∧
  len inventario_repetido = 1%nat ∧
  productos inventario_huerfano = [] ∧
  indice_nombres inventario_huerfano = [("tornillo", ["A1"])] ∧
  buscar_por_nombre inventario_huerfano "tornillo" = Raise KeyError ∧
  buscar_por_nombre inventario_huerfano "" = Raise KeyError.
Proof. split_and!; vm_compute; reflexivity. Qed.

(** ** The properties at work on sample data *)

Lemma inv_inventario_demo : inv inventario_demo.
Proof. apply inv_ejecutar, inv_vacio. Qed.

Lemma productos_inventario_demo :
  productos inventario_demo = [("LAPTOP001", laptop); ("MOUSE001", mouse)].
Proof. by vm_compute. Qed.


(** The demonstration store: the mouse is found in the bucket of its name. *)
Lemma indices_sincronizados_witness :
  exists b,
    ODict.get "mouse logitech mx master 3" (indice_nombres inventario_demo) = Some b
    ∧ "MOUSE001" ∈ b.
Proof.
  destruct (indices_sincronizados_tras_operaciones "inventario.json"
              [OpAgregar laptop; OpAgregar mouse]) as (_ & _ & Hc & _).
  destruct (Hc "MOUSE001" mouse ltac:(vm_compute; reflexivity))
    as (b & Hb & Hi & _).
  exists b. split; assumption.
Defined.


(** Adding the mouse again fails and changes nothing. *)
Lemma agregar_producto_witness :
  agregar_producto inventario_demo mouse = (inventario_demo, false).
Proof.
  destruct (agregar_producto_duplicado_o_nuevo inventario_demo mouse
              (inv_ids _ inv_inventario_demo)) as [Hdup _].
  exact (proj1 (Hdup mouse ltac:(vm_compute; reflexivity))).
Defined.

(** Removing " mouse001 " succeeds and leaves one product. *)
Lemma eliminar_producto_witness :
  exists s',
    eliminar_producto inventario_demo " mouse001 " = (s', Ok true) ∧
    S (len s') = len inventario_demo ∧
    contiene s' " mouse001 " = false.
Proof.
  destruct (eliminar_producto_presente_o_ausente inventario_demo " mouse001 "
              (inv_estructura _ inv_inventario_demo)) as [Hpres _].
  destruct Hpres as (p & s' & _ & Hs' & Hlen & Hc & _).
  { apply (inv_ids _ inv_inventario_demo). vm_compute. eauto. }
  exists s'. by split_and!.
Defined.



(** A file that is not JSON leaves the demonstration store alone. *)
Lemma cargar_inventario_malformado_witness :
  cargar_inventario ahora_demo disco_malformado inventario_demo
  = (inventario_demo, false).
Proof.
  exact (proj1 (cargar_inventario_malformado_no_cambia ahora_demo
                  disco_malformado inventario_demo ltac:(vm_compute; reflexivity))).
Defined.



(** The file with "a1" and "A1 ": one product, listed in two buckets. *)
Lemma cargar_inventario_ids_repetidos_witness :
  exists s' pb b,
    cargar_inventario ahora_demo disco_repetido (inventario_vacio "inventario.json")
      = (s', true) ∧
    ODict.get "A1" (productos s') = Some pb ∧ nombre pb = "Tuerca" ∧
    ODict.get "tornillo" (indice_nombres s') = Some b ∧ "A1" ∈ b.
Proof.
  destruct (cargar_inventario_ids_repetidos ahora_demo disco_repetido
              (inventario_vacio "inventario.json")
              [("productos",
                PList [registro_demo "a1" "tornillo" 5 0.5;
                       registro_demo "A1 " "tuerca" 7 0.25]);
               ("fecha_guardado", PStr ahora_demo);
               ("version", PStr "1.0")]
              [] [] []
              (registro_demo "a1" "tornillo" 5 0.5)
              (registro_demo "A1 " "tuerca" 7 0.25)
              (mkProducto "A1" "Tornillo" 5 0.5%float (PStr ahora_demo))
              (mkProducto "A1" "Tuerca" 7 0.25%float (PStr ahora_demo)))
    as (s' & Hs' & Hpb & _ & (b & Hb & Hi) & _);
    try (vm_compute; reflexivity).
  - repeat constructor.
  - intros r q Hr. by apply elem_of_nil in Hr.
  - exists s', (mkProducto "A1" "Tuerca" 7 0.25%float (PStr ahora_demo)), b.
    by split_and!.
Defined.

(** ** C7: loading when the file does not exist *)

(** C7 fails on the code. With two products in the store and no file on
    disk, loading returns [True] and the two products are still there:
    the early return of line 398 comes before the collections are cleared. *)
Theorem cargar_inventario_sin_archivo_no_vacia :
  archivos disco_vacio !! archivo_inventario inventario_demo = None ∧
  cargar_inventario ahora_demo disco_vacio inventario_demo
    = (inventario_demo, true) ∧
  len (cargar_inventario ahora_demo disco_vacio inventario_demo).1 = 2%nat.
Proof.
  assert (Hd : archivos disco_vacio !! archivo_inventario inventario_demo = None)
    by done.
  split; [done|]. rewrite (cargar_inventario_sin_archivo _ _ _ Hd).
  split; [done|]. unfold len. simpl. by rewrite productos_inventario_demo.
Qed.

(** * Further properties of the code *)

Section MasPropiedades.
Context {F : Type} `{Flotante F}.
Implicit Types (s : Inventario F) (p q : Producto F) (v : pyval F).

(** ** The constructor of [Producto] *)



(** X3. A product built from the id text [si] and then added with success is
    found by [obtener_producto_por_id] and by [in] under [si] itself and
    under every text that differs from it in letter case or in surrounding
    whitespace only. *)
Theorem agregar_y_consultar_por_id s s' (si : string) (n c x : pyval F)
    (ahora : string) p :
  Producto_init (PStr si) n c x ahora = Ok p ->
  agregar_producto s p = (s', true) ->
  forall consulta : string,
    PyStr.upper (PyStr.strip consulta) = PyStr.upper (PyStr.strip si) ->
    obtener_producto_por_id s' consulta = Some p ∧ contiene s' consulta = true.
Proof.
  intros Hp Hadd consulta Hc.
  assert (Hid : id_producto p = PyStr.upper (PyStr.strip si)).
  { unfold Producto_init in Hp. simpl in Hp. case_decide; [done|]. simpl in Hp.
    destruct (_validar_nombre n); simpl in Hp; [|done].
    destruct (_validar_cantidad c); simpl in Hp; [|done].
    destruct (_validar_precio x); simpl in Hp; [|done].
    by injection Hp as <-. }
  assert (Hk : normalizar_id consulta = id_producto p).
  { unfold normalizar_id. by rewrite PyStrFacts.strip_upper, Hc. }
  unfold agregar_producto in Hadd. case_bool_decide; [done|].
  injection Hadd as <-.
  unfold obtener_producto_por_id, contiene. rewrite Hk. simpl. split.
  - apply ODictFacts.get_set_eq.
  - apply bool_decide_eq_true_2, elem_of_union. left. by apply elem_of_singleton.
Qed.


(** ** Updating quantity and price *)








(** ** Membership, lookup and count *)

(** X7. In every store of the maintained shape, [in] and
    [obtener_producto_por_id] agree on every id text, and the id set has as
    many elements as [len] counts products. *)
Theorem contiene_obtener_y_len s :
  estructura s ->
  (forall i : string,
     contiene s i = true <-> is_Some (obtener_producto_por_id s i)) ∧
  size (ids_productos s) = len s.
Proof.
  intros Hs. split.
  - intros i. unfold contiene, obtener_producto_por_id.
    rewrite bool_decide_eq_true. apply (est_ids s Hs).
  - assert (Hset : ids_productos s = list_to_set (ODict.keys (productos s))).
    { apply set_eq. intros k.
      by rewrite elem_of_list_to_set, (est_ids s Hs), ODictFacts.get_is_Some_keys. }
    rewrite Hset, size_list_to_set by apply Hs.
    unfold len, ODict.keys. by rewrite length_fmap.
Qed.

(** ** How the operations compose *)

Lemma list_remove_app_last (x : string) (l : list string) :
  x ∉ l -> list_remove x (l ++ [x]) = l.
Proof.
  induction l as [|y r IH]; simpl.
  - intros _. by rewrite decide_True.
  - rewrite not_elem_of_cons. intros [Hne Hr].
    rewrite decide_False by done. by rewrite IH.
Qed.

Lemma remover_tras_actualizar (idx : list (string * list string)) p :
  (forall b, ODict.get (_normalizar_nombre (nombre p)) idx = Some b ->
             b ≠ [] ∧ id_producto p ∉ b) ->
  _remover_de_indice_nombres (_actualizar_indice_nombres idx p) p = idx.
Proof.
  intros Hb. remember (_normalizar_nombre (nombre p)) as n eqn:Hn.
  destruct (ODict.get n idx) as [b|] eqn:E.
  - destruct (Hb b eq_refl) as [Hne Hni].
    assert (Hact : _actualizar_indice_nombres idx p
                   = ODict.set n (b ++ [id_producto p]) idx).
    { unfold _actualizar_indice_nombres, ODict.mem. rewrite <- Hn, E.
      rewrite (bool_decide_eq_true_2 (is_Some (Some b))) by eauto.
      rewrite E. simpl. by rewrite bool_decide_eq_false_2. }
    rewrite Hact. unfold _remover_de_indice_nombres. rewrite <- Hn.
    rewrite ODictFacts.get_set_eq.
    rewrite bool_decide_eq_true_2
      by (apply elem_of_app; right; by apply list_elem_of_singleton).
    rewrite list_remove_app_last by done.
    destruct b as [|x b]; [done|].
    by rewrite ODictFacts.set_set, ODictFacts.set_same.
  - assert (Hact : _actualizar_indice_nombres idx p
                   = ODict.set n [id_producto p] idx).
    { unfold _actualizar_indice_nombres, ODict.mem. rewrite <- Hn, E.
      rewrite (bool_decide_eq_false_2 (is_Some None)) by (by intros [? ?]).
      rewrite ODictFacts.get_set_eq. simpl.
      by rewrite ODictFacts.set_set. }
    rewrite Hact. unfold _remover_de_indice_nombres. rewrite <- Hn.
    rewrite ODictFacts.get_set_eq.
    rewrite bool_decide_eq_true_2 by (by apply list_elem_of_singleton).
    simpl. rewrite decide_True by done.
    by apply ODictFacts.del_set_fresh.
Qed.

(** X8. In a store of the maintained shape whose index lists stored ids
    only, adding a product with a new (normalized) id and then removing that
    id gives back exactly the store there was before: same products in the
    same order, same id set, same index. *)
Theorem agregar_y_eliminar_restaura s p :
  estructura s -> indice_resuelve s ->
  id_producto p ∉ ids_productos s ->
  normalizar_id (id_producto p) = id_producto p ->
  agregar_producto s p = (insertar s p, true) ∧
  eliminar_producto (insertar s p) (id_producto p) = (s, Ok true).
Proof.
  intros Hs Hres Hfresh Hnorm.
  assert (Hnone : ODict.get (id_producto p) (productos s) = None).
  { destruct (ODict.get _ _) eqn:E; [|done]. exfalso.
    apply Hfresh, (est_ids s Hs). eauto. }
  split.
  - unfold agregar_producto. by rewrite bool_decide_eq_false_2.
  - unfold eliminar_producto. rewrite Hnorm. simpl.
    rewrite bool_decide_eq_true_2
      by (apply elem_of_union; left; by apply elem_of_singleton).
    rewrite ODictFacts.get_set_eq. f_equal.
    rewrite ODictFacts.del_set_fresh by done.
    rewrite remover_tras_actualizar.
    2:{ intros b Hb. split; [by apply (est_cubo s Hs _ _ Hb)|].
        intros Hin. destruct (Hres _ _ Hb _ Hin) as [q Hq]. congruence. }
    replace (({[id_producto p]} ∪ ids_productos s) ∖ {[id_producto p]})
      with (ids_productos s); [by destruct s|].
    apply set_eq. intros k.
    rewrite elem_of_difference, elem_of_union, elem_of_singleton.
    split; [|tauto]. intros Hk. split; [by right|]. by intros ->.
Qed.

(** X9. An operation leaves every other id alone: for an id different from
    the (normalized) id the operation works on, the stored product and the
    membership in the id set are the same after the call as before. *)
Theorem operacion_no_toca_otros_ids s (o : operacion F) (j : string) :
  j ≠ id_de_operacion o ->
  ODict.get j (productos (aplicar s o)) = ODict.get j (productos s) ∧
  (j ∈ ids_productos (aplicar s o) <-> j ∈ ids_productos s).
Proof.
  intros Hj. destruct o as [p|i|i v|i v]; simpl in *.
  - unfold agregar_producto. case_bool_decide; simpl; [done|]. split.
    + by rewrite ODictFacts.get_set_ne.
    + rewrite elem_of_union, elem_of_singleton. split; [by intros [?|?]|auto].
  - unfold eliminar_producto. case_bool_decide; simpl; [|done].
    destruct (ODict.get (normalizar_id i) (productos s)); simpl; [|done]. split.
    + by rewrite ODictFacts.get_del_ne.
    + rewrite elem_of_difference, elem_of_singleton. tauto.
  - unfold actualizar_cantidad, actualizar_con.
    destruct (ODict.get (normalizar_id i) (productos s)) as [p|]; simpl; [|done].
    destruct (set_cantidad p v) as [p'|[]]; simpl; try done.
    by rewrite ODictFacts.get_set_ne.
  - unfold actualizar_precio, actualizar_con.
    destruct (ODict.get (normalizar_id i) (productos s)) as [p|]; simpl; [|done].
    destruct (set_precio p v) as [p'|[]]; simpl; try done.
    by rewrite ODictFacts.get_set_ne.
Qed.

(** X10. Repeating a call fails and changes nothing: a second add under an
    id that was just added (or was already there) returns [False], and, in a
    store of the maintained shape, a second removal of the same id returns
    [False]; both leave the store as the first call left it. *)
Theorem repetir_agregar_o_eliminar s p q (i : string) :
  (id_producto q = id_producto p ->
   agregar_producto (agregar_producto s p).1 q = ((agregar_producto s p).1, false)) ∧
  (estructura s ->
   eliminar_producto (eliminar_producto s i).1 i = ((eliminar_producto s i).1, Ok false)).
Proof.
  split.
  - intros Hid.
    assert (Hin : id_producto q ∈ ids_productos (agregar_producto s p).1).
    { rewrite Hid. unfold agregar_producto. case_bool_decide; simpl; [done|].
      apply elem_of_union. left. by apply elem_of_singleton. }
    generalize dependent (agregar_producto s p).1. intros s1 Hin.
    unfold agregar_producto. by rewrite bool_decide_eq_true_2.
  - intros Hs.
    assert (Hout : normalizar_id i ∉ ids_productos (eliminar_producto s i).1).
    { unfold eliminar_producto. case_bool_decide as Hin; simpl; [|done].
      destruct (proj1 (est_ids s Hs _) Hin) as [p' Hp']. rewrite Hp'. simpl.
      rewrite elem_of_difference, elem_of_singleton. tauto. }
    generalize dependent (eliminar_producto s i).1. intros s1 Hout.
    unfold eliminar_producto. by rewrite bool_decide_eq_false_2.
Qed.

(** ** Loading: what a store holds afterwards *)

Lemma archivo_insertar s p : archivo_inventario (insertar s p) = archivo_inventario s.
Proof. done. Qed.

Lemma archivo_cargar_productos (ahora : string) (l : list (pyval F)) s :
  archivo_inventario (cargar_productos ahora l s).1 = archivo_inventario s.
Proof.
  revert s. induction l as [|r l IH]; intros s; simpl; [done|].
  destruct (from_dict r ahora); [by rewrite IH|].
  destruct (py_get r "id_producto" _); [apply IH|done].
Qed.

Lemma archivo_cargar (ahora : string) (d : Disco F) s :
  archivo_inventario (cargar_inventario ahora d s).1 = archivo_inventario s.
Proof.
  unfold cargar_inventario.
  destruct (archivos d !! archivo_inventario s) as [[data|]|]; simpl; try done.
  destruct (_ ≫= _) as [registros|]; simpl; [|done].
  pose proof (archivo_cargar_productos ahora registros (limpiar s)) as Hl.
  by destruct (cargar_productos ahora registros (limpiar s)) as [s1 [|]].
Qed.

Lemma archivo_aplicar s (o : operacion F) :
  archivo_inventario (aplicar s o) = archivo_inventario s.
Proof.
  destruct o as [p|i|i v|i v]; simpl.
  - unfold agregar_producto. by case_bool_decide.
  - unfold eliminar_producto. case_bool_decide; [|done].
    by destruct (ODict.get (normalizar_id i) (productos s)).
  - unfold actualizar_cantidad, actualizar_con.
    destruct (ODict.get (normalizar_id i) (productos s)) as [p|]; [|done].
    by destruct (set_cantidad p v) as [p'|[]].
  - unfold actualizar_precio, actualizar_con.
    destruct (ODict.get (normalizar_id i) (productos s)) as [p|]; [|done].
    by destruct (set_precio p v) as [p'|[]].
Qed.

(** X11. Whatever sequence of adds, removals, updates and loads (from any
    disk contents) is applied to a new empty store, the store keeps its
    shape: the id set is the key set of the product dict, every product is
    filed under its own id, no bucket of the index is empty or lists an id
    twice; and the configured path never changes. *)
Theorem estructura_tras_acciones (archivo : string) (acciones : list (accion F)) :
  let s := ejecutar_acciones acciones (inventario_vacio archivo) in
  estructura s ∧
  ids_productos s = list_to_set (ODict.keys (productos s)) ∧
  archivo_inventario s = archivo.
Proof.
  intros s.
  assert (Hgen : forall l s0, estructura s0 ->
            estructura (ejecutar_acciones l s0) ∧
            archivo_inventario (ejecutar_acciones l s0) = archivo_inventario s0).
  { unfold ejecutar_acciones.
    induction l as [|a l IH]; intros s0 Hs0; simpl; [done|].
    destruct a as [o|ahora d]; simpl.
    - destruct (IH (aplicar s0 o)) as [He Ha]; [by apply estructura_aplicar|].
      split; [done|]. by rewrite Ha, archivo_aplicar.
    - destruct (IH (cargar_inventario ahora d s0).1) as [He Ha];
        [by apply estructura_cargar|].
      split; [done|]. by rewrite Ha, archivo_cargar. }
  destruct (Hgen acciones (inventario_vacio archivo) (estructura_vacio _))
    as [Hs Ha].
  subst s. split_and!; [done| |done].
  apply set_eq. intros k.
  by rewrite elem_of_list_to_set, (est_ids _ Hs), ODictFacts.get_is_Some_keys.
Qed.

Lemma length_set_le {V} (k : string) (x : V) (d : list (string * V)) :
  (length (ODict.set k x d) ≤ S (length d))%nat.
Proof.
  induction d as [|[k' x'] r IH]; simpl; [lia|].
  case_decide; simpl; lia.
Qed.

Lemma cargar_productos_procedencia (ahora : string) (l : list (pyval F)) s :
  (forall k p, ODict.get k (productos (cargar_productos ahora l s).1) = Some p ->
     ODict.get k (productos s) = Some p ∨
     exists r, r ∈ l ∧ from_dict r ahora = Ok p ∧ id_producto p = k) ∧
  (length (productos (cargar_productos ahora l s).1)
     ≤ length (productos s) + length l)%nat.
Proof.
  revert s. induction l as [|r l IH]; intros s; simpl.
  - split; [auto|lia].
  - destruct (from_dict r ahora) as [q|] eqn:Er.
    + destruct (IH (insertar s q)) as [IH1 IH2]. split.
      * intros k p Hg. destruct (IH1 k p Hg) as [Hs|(r' & Hr' & Hf & Hid)].
        -- simpl in Hs. rewrite ODictFacts.get_set in Hs.
           case_decide as Hk; [|by left]. injection Hs as <-.
           right. exists r. split_and!; [by left|done|done].
        -- right. exists r'. split_and!; [by right|done|done].
      * simpl in IH2. pose proof (length_set_le (id_producto q) q (productos s)).
        lia.
    + destruct (py_get r "id_producto" _).
      * destruct (IH s) as [IH1 IH2]. split; [|lia].
        intros k p Hg. destruct (IH1 k p Hg) as [?|(r' & Hr' & Hf & Hid)];
          [by left|]. right. exists r'. split_and!; [by right|done|done].
      * simpl. split; [auto|lia].
Qed.

(** X12. When the file exists and parses, what the store held before the
    load does not matter: the outcome is the one an empty store on the same
    path gives, every product of the loaded store is what [from_dict] builds
    from one of the file's records, filed under its own id, and there are at
    most as many products as records. *)
Theorem cargar_inventario_solo_del_archivo (ahora : string) (d : Disco F) s
    (data : pyval F) (registros : list (pyval F)) :
  archivos d !! archivo_inventario s = Some (ArchivoJson data) ->
  registros_de data = Ok registros ->
  cargar_inventario ahora d s =
    cargar_inventario ahora d (inventario_vacio (archivo_inventario s)) ∧
  (forall k p,
     ODict.get k (productos (cargar_inventario ahora d s).1) = Some p ->
     exists r, r ∈ registros ∧ from_dict r ahora = Ok p ∧ id_producto p = k) ∧
  (len (cargar_inventario ahora d s).1 ≤ length registros)%nat.
Proof.
  intros Hd Hr. split; [by unfold cargar_inventario; simpl; rewrite Hd|].
  unfold cargar_inventario, len. rewrite Hd.
  unfold registros_de in Hr. rewrite Hr.
  destruct (cargar_productos_procedencia ahora registros (limpiar s)) as [H1 H2].
  destruct (cargar_productos ahora registros (limpiar s)) as [s1 [|]]; simpl in *.
  - split; [|lia]. intros k p Hg. by destruct (H1 k p Hg).
  - split; [|lia]. intros k p Hg. by destruct (H1 k p Hg).
Qed.

Lemma cargar_registros_claves (ahora : string) (l : list (pyval F)) s (k : string) :
  is_Some (ODict.get k (productos (fold_left (cargar_registro ahora) l s))) <->
  is_Some (ODict.get k (productos s)) ∨
  exists r p, r ∈ l ∧ from_dict r ahora = Ok p ∧ id_producto p = k.
Proof.
  revert s. induction l as [|r l IH]; intros s; simpl.
  - split; [auto|]. intros [?|(r & p & Hr & _)]; [done|by apply elem_of_nil in Hr].
  - rewrite IH. unfold cargar_registro at 1.
    destruct (from_dict r ahora) as [q|] eqn:Er; simpl.
    + rewrite ODictFacts.get_set. split.
      * intros [Hs|(r' & p & Hr' & Hf & Hid)].
        -- case_decide as Hk; [|by left]. right. exists r, q.
           split_and!; [by left|done|done].
        -- right. exists r', p. split_and!; [by right|done|done].
      * intros [Hs|(r' & p & Hr' & Hf & Hid)].
        -- left. case_decide; [eauto|done].
        -- apply elem_of_cons in Hr' as [->|Hr'].
           ++ left. rewrite Er in Hf. injection Hf as ->.
              rewrite decide_True by done. eauto.
           ++ right. exists r', p. by split_and!.
    + split.
      * intros [?|(r' & p & Hr' & Hf & Hid)]; [by left|].
        right. exists r', p. split_and!; [by right|done|done].
      * intros [?|(r' & p & Hr' & Hf & Hid)]; [by left|].
        apply elem_of_cons in Hr' as [->|Hr']; [congruence|].
        right. exists r', p. by split_and!.
Qed.

(** X13. When every record of a parsed file is a JSON object, the load
    returns [True], and the ids it stores are exactly the ids of the records
    that validate: a record that does not validate is skipped and does not
    stop the load. *)
Theorem cargar_inventario_omite_invalidos (ahora : string) (d : Disco F) s
    (data : pyval F) (registros : list (pyval F)) :
  archivos d !! archivo_inventario s = Some (ArchivoJson data) ->
  registros_de data = Ok registros ->
  Forall es_dict registros ->
  exists s',
    cargar_inventario ahora d s = (s', true) ∧
    forall k,
      is_Some (ODict.get k (productos s')) <->
      exists r p, r ∈ registros ∧ from_dict r ahora = Ok p ∧ id_producto p = k.
Proof.
  intros Hd Hr Hdicts. unfold cargar_inventario. rewrite Hd.
  unfold registros_de in Hr. rewrite Hr.
  rewrite cargar_productos_dicts by done. eexists. split; [done|].
  intros k. rewrite cargar_registros_claves. simpl. split; [|auto].
  by intros [[? ?]|?].
Qed.

Lemma from_dict_no_objeto (ahora : string) (r : pyval F) :
  ¬ es_dict r ->
  (exists e, from_dict r ahora = Raise e) ∧
  py_get r "id_producto" (PStr "desconocido") = Raise AttributeError.
Proof.
  intros Hr. destruct r; simpl in *; try done; split; eauto.
Qed.

Lemma cargar_productos_aborta (ahora : string) (antes despues : list (pyval F))
    (r : pyval F) s :
  Forall es_dict antes -> ¬ es_dict r ->
  cargar_productos ahora (antes ++ r :: despues) s =
    (fold_left (cargar_registro ahora) antes s, Raise AttributeError).
Proof.
  intros Hantes Hno. revert s.
  induction Hantes as [|a antes Ha _ IH]; intros s; simpl.
  - destruct (from_dict_no_objeto ahora r Hno) as [[e He] Hg].
    by rewrite He, Hg.
  - unfold cargar_registro at 2. destruct (from_dict a ahora); [apply IH|].
    destruct a; try done. simpl.
    destruct (ODict.get "id_producto" _); apply IH.
Qed.

(** X14. A record that is not a JSON object (a number, a string, a list,
    null) stops the load: it returns [False], and the store is left with
    what the records before it put in, the old contents being gone and the
    records after it never read. *)
Theorem cargar_inventario_registro_no_objeto (ahora : string) (d : Disco F) s
    (data : pyval F) (antes despues : list (pyval F)) (r : pyval F) :
  archivos d !! archivo_inventario s = Some (ArchivoJson data) ->
  registros_de data = Ok (antes ++ r :: despues) ->
  Forall es_dict antes ->
  ¬ es_dict r ->
  cargar_inventario ahora d s =
    (fold_left (cargar_registro ahora) antes (limpiar s), false).
Proof.
  intros Hd Hr Hantes Hno. unfold cargar_inventario. rewrite Hd.
  unfold registros_de in Hr. rewrite Hr.
  by rewrite cargar_productos_aborta.
Qed.

(** X15. A file that parses but has the wrong outline empties the store.
    If the top level is not an object, or its "productos" is not iterable
    (null, a number, a boolean), the load returns [False]; if the object has
    no "productos" at all, the load returns [True]. In each case the store
    is left with no product, no id and no bucket. *)
Theorem cargar_inventario_contenedor_inesperado (ahora : string) (d : Disco F) s
    (data : pyval F) :
  archivos d !! archivo_inventario s = Some (ArchivoJson data) ->
  (¬ es_dict data -> cargar_inventario ahora d s = (limpiar s, false)) ∧
  (forall campos, data = PDict campos ->
     ODict.get "productos" campos = None ->
     cargar_inventario ahora d s = (limpiar s, true)) ∧
  (forall campos valor, data = PDict campos ->
     ODict.get "productos" campos = Some valor ->
     py_iter valor = Raise TypeError ->
     cargar_inventario ahora d s = (limpiar s, false)) ∧
  productos (limpiar s) = [] ∧ ids_productos (limpiar s) = ∅ ∧
  indice_nombres (limpiar s) = [].
Proof.
  intros Hd. unfold cargar_inventario. rewrite Hd. split_and!; try done.
  - intros Hno. by destruct data.
  - intros campos -> Hc. simpl. by rewrite Hc.
  - intros campos valor -> Hc Hv. simpl. rewrite Hc. simpl. by rewrite Hv.
Qed.


(** ** Saving and loading again *)

Lemma ids_de_valores (d : list (string * Producto F)) :
  (forall k p, (k, p) ∈ d -> id_producto p = k) ->
  id_producto <$> ODict.values d = ODict.keys d.
Proof.
  unfold ODict.values, ODict.keys.
  induction d as [|[k p] r IH]; intros Hid; csimpl; [done|].
  rewrite (Hid k p) by (by left). f_equal. apply IH.
  intros k' p' Hin. apply Hid. by right.
Qed.

Lemma inv_fold_insertar (ps : list (Producto F)) s :
  inv s ->
  NoDup (id_producto <$> ps) ->
  (forall p, p ∈ ps -> id_producto p ∉ ids_productos s) ->
  inv (fold_left insertar ps s).
Proof.
  revert s. induction ps as [|p r IH]; intros s Hs Hnd Hfresh; csimpl; [done|].
  apply NoDup_cons in Hnd as [Hp Hnd].
  apply IH; [apply inv_insertar; [done|apply Hfresh; by left]|done|].
  intros q Hq. simpl. rewrite elem_of_union, elem_of_singleton.
  intros [Heq|Hin].
  - apply Hp. rewrite <- Heq. apply list_elem_of_fmap. by exists q.
  - by apply (Hfresh q); [right|].
Qed.

(** X17. For a store whose product dict is well formed, whatever state
    its index is in, a successful save followed by a load into that same
    store succeeds, gives back the same product dict, and leaves a store
    that satisfies the full invariant: the index is rebuilt from the
    products. *)
Theorem guardar_y_recargar_restablece_indice (ahora ahora' : string)
    (d d' : Disco F) s :
  productos_ok s ->
  guardar_inventario ahora d s = (d', true) ->
  exists s',
    cargar_inventario ahora' d' s = (s', true) ∧
    productos s' = productos s ∧
    inv s'.
Proof.
  intros [Hnd Hok] Hsave.
  assert (Hid : forall k p, (k, p) ∈ productos s -> id_producto p = k).
  { intros k p Hin. apply (Hok k). by apply ODictFacts.elem_get. }
  assert (Hload : cargar_inventario ahora' d' s =
    (fold_left insertar (ODict.values (productos s)) (limpiar s), true)).
  { unfold guardar_inventario in Hsave. case_bool_decide; [done|].
    injection Hsave as <-. unfold cargar_inventario. cbn [archivos].
    rewrite lookup_insert_eq. cbn [py_get ODict.get].
    rewrite decide_True by done. cbn [mbind res_bind py_iter].
    rewrite cargar_productos_validos; [done|].
    intros p (kp & -> & Hin)%list_elem_of_fmap. destruct kp as [k p]. simpl.
    apply (Hok k). by apply ODictFacts.elem_get. }
  eexists. split; [exact Hload|]. split.
  - rewrite productos_fold_insertar. cbn [productos limpiar inventario_vacio].
    by rewrite fold_set_values.
  - apply inv_fold_insertar; [apply inv_vacio| |].
    + by rewrite ids_de_valores.
    + intros p _. simpl. apply not_elem_of_empty.
Qed.

(** ** Listing in id order and low stock *)

Lemma StronglySorted_fmap_inv {A B} (f : A -> B) (R : relation B) (l : list A) :
  StronglySorted R (f <$> l) -> StronglySorted (fun a b => R (f a) (f b)) l.
Proof.
  induction l as [|a r IH]; csimpl; intros Hs; [constructor|].
  apply StronglySorted_cons in Hs as [Hhd Htl].
  apply StronglySorted_cons. split; [|by apply IH].
  rewrite Forall_fmap in Hhd. exact Hhd.
Qed.

Lemma ids_de_resueltos s (ids : list string) (ps : list (Producto F)) :
  (forall k p, ODict.get k (productos s) = Some p -> id_producto p = k) ->
  Forall2 (fun i p => ODict.get i (productos s) = Some p) ids ps ->
  id_producto <$> ps = ids.
Proof.
  intros Hcl Hf. induction Hf as [|i p ids ps Hp _ IH]; csimpl; [done|].
  by rewrite (Hcl i p Hp), IH.
Qed.

(** X18. In a store of the maintained shape, [mostrar_todos_productos]
    never raises and returns every stored product exactly once, in
    ascending order of id (strings compared by code point). *)
Theorem mostrar_todos_productos_ordenados s :
  estructura s ->
  exists ps,
    mostrar_todos_productos s = Ok ps ∧
    ps ≡ₚ ODict.values (productos s) ∧
    StronglySorted (fun p q => str_le (id_producto p) (id_producto q)) ps ∧
    NoDup (id_producto <$> ps).
Proof.
  intros Hs. unfold mostrar_todos_productos.
  pose proof (merge_sort_Permutation str_le (ODict.keys (productos s))) as Hperm.
  fold (py_sorted (ODict.keys (productos s))) in Hperm.
  destruct (res_mapM_producto_de s (py_sorted (ODict.keys (productos s))))
    as [Hm Hf].
  { intros i Hi. apply ODictFacts.get_is_Some_keys. by rewrite <- Hperm. }
  exists (productos_de_ids s (py_sorted (ODict.keys (productos s)))).
  pose proof (ids_de_resueltos s _ _ (est_clave s Hs) Hf) as Hids.
  split_and!.
  - done.
  - rewrite <- (productos_de_ids_claves s) by apply Hs.
    unfold productos_de_ids. by apply omap_Permutation.
  - apply (StronglySorted_fmap_inv id_producto str_le). rewrite Hids.
    apply StronglySorted_merge_sort; apply _.
  - rewrite Hids, Hperm. apply Hs.
Qed.

Lemma filter_sublist_mono {A} (P Q : A -> Prop) `{forall x, Decision (P x)}
    `{forall x, Decision (Q x)} (l : list A) :
  (forall x, P x -> Q x) -> filter P l `sublist_of` filter Q l.
Proof.
  intros HPQ. induction l as [|x r IH]; [done|].
  rewrite !filter_cons. destruct (decide (P x)) as [HP|HP].
  - rewrite decide_True by auto. by apply sublist_skip.
  - destruct (decide (Q x)); [by apply sublist_cons|done].
Qed.

(** X19. [obtener_productos_bajo_stock] returns exactly the stored products
    whose quantity is at most the limit, in the order of the store; raising
    the limit only adds products; and when no stored quantity is negative, a
    negative limit returns nothing. *)
Theorem obtener_productos_bajo_stock_filtra s (limite limite' : Z) :
  (forall p, p ∈ obtener_productos_bajo_stock s limite <->
             p ∈ ODict.values (productos s) ∧ cantidad p ≤ limite) ∧
  obtener_productos_bajo_stock s limite `sublist_of` ODict.values (productos s) ∧
  (limite ≤ limite' ->
   obtener_productos_bajo_stock s limite
     `sublist_of` obtener_productos_bajo_stock s limite') ∧
  ((forall p, p ∈ ODict.values (productos s) -> 0 ≤ cantidad p) ->
   limite < 0 -> obtener_productos_bajo_stock s limite = []).
Proof.
  unfold obtener_productos_bajo_stock. split_and!.
  - intros p. rewrite list_elem_of_filter. tauto.
  - apply sublist_filter.
  - intros Hle. apply filter_sublist_mono. intros p. simpl. lia.
  - intros Hpos Hneg. apply filter_ninguno. intros p Hp. specialize (Hpos p Hp).
    simpl. lia.
Qed.

(** ** Finding what was added *)


(** with an exact bucket, the search returns its products *)
Lemma buscar_por_nombre_con_exacto s (consulta : string) (b : list string) :
  estructura s -> indice_resuelve s ->
  ODict.get (_normalizar_nombre consulta) (indice_nombres s) = Some b ->
  buscar_por_nombre s consulta = Ok (productos_de_ids s b).
Proof.
  intros Hs Hres Hb. unfold buscar_por_nombre. rewrite Hb.
  destruct (res_mapM_producto_de s b) as [Hm Hf];
    [by apply (Hres (_normalizar_nombre consulta) b)|].
  rewrite Hm. simpl. destruct (est_cubo s Hs _ _ Hb) as [Hne _].
  destruct Hf; [done|done].
Qed.


(** ** What the returned flags say *)

(** X21. In a store of the maintained shape, [eliminar_producto] never
    raises and returns [True] exactly when the id was in the store, and
    [agregar_producto] returns [True] exactly when the id of the product
    (an id in normal form) was not. *)
Theorem banderas_de_eliminar_y_agregar s p (i : string) :
  estructura s ->
  (eliminar_producto s i).2 = Ok (contiene s i) ∧
  (normalizar_id (id_producto p) = id_producto p ->
   (agregar_producto s p).2 = negb (contiene s (id_producto p))).
Proof.
  intros Hs. split.
  - unfold eliminar_producto, contiene. case_bool_decide as Hin; [|done].
    by destruct (proj1 (est_ids s Hs _) Hin) as [p' ->].
  - intros Hn. unfold agregar_producto, contiene. rewrite Hn.
    by case_bool_decide.
Qed.

(** ** Statistics after an add *)



(** ** Search, in terms of products *)

Lemma elem_of_productos_de_ids s (ids : list string) p :
  p ∈ productos_de_ids s ids <->
  exists i, i ∈ ids ∧ ODict.get i (productos s) = Some p.
Proof. unfold productos_de_ids. apply list_elem_of_omap. Qed.

(** X23. In a store that satisfies the invariant the search always returns
    a list, and the list is described by the products alone. Every result is
    a stored product whose normalized name contains the normalized query.
    If some stored product has exactly the normalized query as normalized
    name, the results are the stored products with that normalized name and
    no others (a longer name that merely contains the query is then left
    out); if none has, the results are all stored products whose normalized
    name contains the normalized query. *)
Theorem buscar_por_nombre_por_productos s (consulta : string) :
  inv s ->
  let q := _normalizar_nombre consulta in
  let guardado p := ODict.get (id_producto p) (productos s) = Some p in
  exists ps,
    buscar_por_nombre s consulta = Ok ps ∧
    (forall p, p ∈ ps ->
       guardado p ∧ PyStr.contains q (_normalizar_nombre (nombre p)) = true) ∧
    ((exists p0, guardado p0 ∧ _normalizar_nombre (nombre p0) = q) ->
     forall p, p ∈ ps <-> guardado p ∧ _normalizar_nombre (nombre p) = q) ∧
    ((forall p0, guardado p0 -> _normalizar_nombre (nombre p0) ≠ q) ->
     forall p, p ∈ ps <->
       guardado p ∧ PyStr.contains q (_normalizar_nombre (nombre p)) = true).
Proof.
  intros Hs q guardado.
  pose proof (inv_estructura s Hs) as He.
  pose proof (inv_indice_resuelve s Hs) as Hres.
  assert (Hexacto : forall b, ODict.get q (indice_nombres s) = Some b ->
    forall p, p ∈ productos_de_ids s b <->
              guardado p ∧ _normalizar_nombre (nombre p) = q).
  { intros b Hb p. rewrite elem_of_productos_de_ids. unfold guardado. split.
    - intros (i & Hi & Hp). destruct (inv_idx s Hs _ _ _ Hb Hi) as (p' & Hp' & Hn).
      assert (p' = p) as -> by congruence.
      by rewrite (inv_clave s Hs _ _ Hp).
    - intros [Hp Hn]. destruct (inv_cubre s Hs _ _ Hp) as (b' & Hb' & Hi).
      rewrite Hn in Hb'. assert (b' = b) as -> by congruence. eauto. }
  assert (Hparcial : forall p,
    p ∈ concat ((fun item => productos_de_ids s item.2) <$> cubos_parciales s q) <->
    guardado p ∧ PyStr.contains q (_normalizar_nombre (nombre p)) = true).
  { intros p. rewrite concat_productos_de_ids, elem_of_productos_de_ids.
    unfold guardado, cubos_parciales. split.
    - intros (i & Hi & Hp). apply elem_of_concat_cubos in Hi as (n & b & Hin & Hi).
      apply list_elem_of_filter in Hin as [Hc Hin]. simpl in Hc.
      apply (ODictFacts.elem_get _ _ _ (est_idx_nodup s He)) in Hin.
      destruct (inv_idx s Hs _ _ _ Hin Hi) as (p' & Hp' & Hn).
      assert (p' = p) as -> by congruence.
      rewrite (inv_clave s Hs _ _ Hp), Hn. split; [done|].
      by apply Is_true_true.
    - intros [Hp Hc]. destruct (inv_cubre s Hs _ _ Hp) as (b & Hb & Hi).
      exists (id_producto p). split; [|done].
      apply elem_of_concat_cubos. eexists _, b. split; [|done].
      apply list_elem_of_filter. split; [simpl; by apply Is_true_true|].
      by apply ODictFacts.get_Some_elem. }
  destruct (ODict.get q (indice_nombres s)) as [b|] eqn:Eb.
  - exists (productos_de_ids s b).
    split; [by apply buscar_por_nombre_con_exacto|]. split_and!.
    + intros p Hp. apply (Hexacto b eq_refl) in Hp as [Hg Hn].
      split; [done|]. rewrite Hn. apply PyStrFacts.contains_refl.
    + intros _. by apply Hexacto.
    + intros Hno. destruct (est_cubo s He _ _ Eb) as [Hne _].
      destruct b as [|i b]; [done|].
      destruct (inv_idx s Hs _ _ i Eb) as (p0 & Hp0 & Hn0); [by left|].
      exfalso. apply (Hno p0); [|done]. unfold guardado.
      by rewrite (inv_clave s Hs _ _ Hp0).
  - exists (concat ((fun item => productos_de_ids s item.2) <$> cubos_parciales s q)).
    split; [by apply buscar_por_nombre_sin_exacto|]. split_and!.
    + intros p. apply Hparcial.
    + intros (p0 & Hp0 & Hn0).
      destruct (inv_cubre s Hs _ _ Hp0) as (b & Hb & _). congruence.
    + intros _. apply Hparcial.
Qed.

End MasPropiedades.

(** ** The further properties at work on sample data *)



Lemma agregar_y_consultar_por_id_witness :
  obtener_producto_por_id
    (agregar_producto (inventario_vacio "inventario.json") laptop).1
    "Laptop001" = Some laptop.
Proof.
  destruct (agregar_y_consultar_por_id (H:=Flotante_float) (inventario_vacio "inventario.json")
              (agregar_producto (inventario_vacio "inventario.json") laptop).1
              " laptop001 " (PStr "laptop dell XPS 13") (PInt 10)
              (PFloat 1299.99%float) ahora_demo laptop
              ltac:(vm_compute; reflexivity) ltac:(vm_compute; reflexivity)
              "Laptop001" ltac:(vm_compute; reflexivity)) as [Hget _].
  exact Hget.
Defined.




Lemma contiene_obtener_y_len_witness :
  size (ids_productos inventario_demo) = len inventario_demo.
Proof.
  exact (proj2 (contiene_obtener_y_len inventario_demo
                  (inv_estructura _ inv_inventario_demo))).
Defined.

Lemma agregar_y_eliminar_restaura_witness :
  eliminar_producto (insertar inventario_demo cable) "CABLE001"
  = (inventario_demo, Ok true).
Proof.
  exact (proj2 (agregar_y_eliminar_restaura inventario_demo cable
                  (inv_estructura _ inv_inventario_demo)
                  (inv_indice_resuelve _ inv_inventario_demo)
                  ltac:(vm_compute; intros Hin; discriminate Hin)
                  ltac:(vm_compute; reflexivity))).
Defined.

Lemma operacion_no_toca_otros_ids_witness :
  ODict.get "LAPTOP001" (productos (aplicar inventario_demo (OpEliminar "mouse001")))
  = ODict.get "LAPTOP001" (productos inventario_demo).
Proof.
  exact (proj1 (operacion_no_toca_otros_ids (H:=Flotante_float) inventario_demo
                  (OpEliminar "mouse001") "LAPTOP001"
                  ltac:(vm_compute; discriminate))).
Defined.

Lemma repetir_agregar_witness :
  agregar_producto (agregar_producto inventario_demo cable).1 cable
  = ((agregar_producto inventario_demo cable).1, false).
Proof.
  exact (proj1 (repetir_agregar_o_eliminar inventario_demo cable cable "")
           eq_refl).
Defined.

Lemma cargar_inventario_solo_del_archivo_witness :
  (len (cargar_inventario ahora_demo (disco_con (archivo_de registros_con_invalido))
          inventario_demo).1 ≤ 3)%nat.
Proof.
  destruct (cargar_inventario_solo_del_archivo (H:=Flotante_float) ahora_demo
              (disco_con (archivo_de registros_con_invalido)) inventario_demo
              (archivo_de registros_con_invalido) registros_con_invalido
              ltac:(vm_compute; reflexivity) ltac:(vm_compute; reflexivity))
    as (_ & _ & Hlen).
  exact Hlen.
Defined.

Lemma cargar_inventario_omite_invalidos_witness :
  exists s',
    cargar_inventario ahora_demo (disco_con (archivo_de registros_con_invalido))
      inventario_demo = (s', true) ∧
    is_Some (ODict.get "C3" (productos s')).
Proof.
  destruct (cargar_inventario_omite_invalidos (H:=Flotante_float) ahora_demo
              (disco_con (archivo_de registros_con_invalido)) inventario_demo
              (archivo_de registros_con_invalido) registros_con_invalido
              ltac:(vm_compute; reflexivity) ltac:(vm_compute; reflexivity)
              ltac:(repeat constructor))
    as (s' & Hs' & Hk).
  exists s'. split; [done|]. apply Hk.
  exists (registro_demo "c3" "tuerca" 7 0.25),
         (mkProducto "C3" "Tuerca" 7 0.25%float (PStr ahora_demo)).
  split_and!; [|vm_compute; reflexivity|reflexivity].
  do 2 right. left.
Defined.

Lemma cargar_inventario_registro_no_objeto_witness :
  cargar_inventario ahora_demo (disco_con (archivo_de registros_con_numero))
    inventario_demo
  = (fold_left (cargar_registro ahora_demo) [registro_demo "a1" "tornillo" 5 0.5]
       (limpiar inventario_demo), false).
Proof.
  apply (cargar_inventario_registro_no_objeto (H:=Flotante_float) ahora_demo
           (disco_con (archivo_de registros_con_numero)) inventario_demo
           (archivo_de registros_con_numero)
           [registro_demo "a1" "tornillo" 5 0.5]
           [registro_demo "c3" "tuerca" 7 0.25] (PInt 7)).
  - vm_compute. reflexivity.
  - vm_compute. reflexivity.
  - repeat constructor.
  - simpl. tauto.
Defined.

Lemma cargar_inventario_contenedor_witness :
  cargar_inventario ahora_demo (disco_con (PList [])) inventario_demo
  = (limpiar inventario_demo, false).
Proof.
  destruct (cargar_inventario_contenedor_inesperado (H:=Flotante_float) ahora_demo
              (disco_con (PList [])) inventario_demo (PList [])
              ltac:(vm_compute; reflexivity)) as (Hno & _).
  apply Hno. simpl. tauto.
Defined.

Lemma productos_ok_inventario_repetido : productos_ok inventario_repetido.
Proof.
  assert (Hp : productos inventario_repetido =
    [("A1", mkProducto "A1" "Tuerca" 7 0.25%float (PStr ahora_demo))])
    by (vm_compute; reflexivity).
  unfold productos_ok. rewrite Hp. split.
  - apply NoDup_singleton.
  - intros k p Hg%ODictFacts.get_Some_elem.
    apply list_elem_of_singleton in Hg. injection Hg as -> ->.
    split; [done|]. split_and!; vm_compute; reflexivity.
Qed.

Lemma guardar_y_recargar_witness :
  exists s',
    cargar_inventario ahora_demo
      (guardar_inventario ahora_demo disco_vacio inventario_repetido).1
      inventario_repetido = (s', true) ∧
    inv s'.
Proof.
  destruct (guardar_y_recargar_restablece_indice (H:=Flotante_float) ahora_demo ahora_demo
              disco_vacio
              (guardar_inventario ahora_demo disco_vacio inventario_repetido).1
              inventario_repetido productos_ok_inventario_repetido
              ltac:(vm_compute; reflexivity)) as (s' & Hs' & _ & Hinv).
  by exists s'.
Defined.

Lemma mostrar_todos_productos_witness :
  exists ps,
    mostrar_todos_productos inventario_demo = Ok ps ∧
    ps ≡ₚ ODict.values (productos inventario_demo).
Proof.
  destruct (mostrar_todos_productos_ordenados inventario_demo
              (inv_estructura _ inv_inventario_demo)) as (ps & Hps & Hperm & _).
  by exists ps.
Defined.

Lemma obtener_productos_bajo_stock_witness :
  laptop ∈ obtener_productos_bajo_stock inventario_demo 10.
Proof.
  destruct (obtener_productos_bajo_stock_filtra inventario_demo 10 10)
    as (Hin & _).
  apply Hin. split; [|simpl; lia].
  rewrite productos_inventario_demo. by left.
Defined.


Lemma banderas_witness :
  (eliminar_producto inventario_demo "nadie").2 = Ok false ∧
  (agregar_producto inventario_demo cable).2 = true.
Proof.
  destruct (banderas_de_eliminar_y_agregar inventario_demo cable "nadie"
              (inv_estructura _ inv_inventario_demo)) as [He Ha].
  split; [exact He|]. exact (Ha ltac:(vm_compute; reflexivity)).
Defined.


Lemma buscar_por_nombre_por_productos_witness :
  exists ps,
    buscar_por_nombre inventario_demo "o" = Ok ps ∧
    (forall p, p ∈ ps <->
       ODict.get (id_producto p) (productos inventario_demo) = Some p ∧
       PyStr.contains "o" (_normalizar_nombre (nombre p)) = true).
Proof.
  destruct (buscar_por_nombre_por_productos inventario_demo "o"
              inv_inventario_demo) as (ps & Hps & _ & _ & Hpar).
  exists ps. split; [exact Hps|]. apply Hpar.
  intros p0 Hg. pose proof (ODictFacts.get_Some_elem _ _ _ Hg) as Hin.
  rewrite productos_inventario_demo in Hin.
  apply elem_of_cons in Hin as [[= _ ->]|Hin];
    [|apply list_elem_of_singleton in Hin; injection Hin as _ ->];
    vm_compute; discriminate.
Defined.
